(** * binance_public_data: the S3 listing crawler, the key filter and the
      archive downloader

    A shallow embedding of the Python sources

      - utils.py                      (module [Utils])
      - download_xml_multiprocess.py  (module [DownloadXmlMultiprocess])
      - download_zip_data.py          (module [DownloadZipData])
      - count_xml_zip_files.py        (module [CountXmlZipFiles])

    followed by the properties of the crawler, the key filter and the
    downloader.

    Conventions of the embedding.
      - A Python [str] or [bytes] value is a [string]; a value that is either
        a [str] or [None] is an [option string].
      - An exception is a value [exn]; a computation that may raise has a
        result in [Exc].
      - The interpreter and the third-party libraries (xml.etree, requests,
        pathlib, the process pool, [int]) are not part of the repository:
        what they answer is read from an environment [Env].
      - The file system, the trace of HTTP requests and the output of the
        logger are the mutable state [State], threaded through the monad
        [M]. [print] only writes to the terminal and is left out, except
        for the two progress lines that announce a level, which set the
        ghost field [level_shown]. *)

From Stdlib Require Import ZArith Ascii String List QArith DecimalString Lia.
From stdpp Require Import base option list gmap strings.

Local Open Scope Z_scope.

(** ** Python strings *)

Module PyStr.

(** [s.startswith(p)] *)
Fixpoint startswith (s p : string) {struct p} : bool :=
  match p, s with
  | EmptyString, _ => true
  | String _ _, EmptyString => false
  | String b p', String a s' => Ascii.eqb a b && startswith s' p'
  end.

(** [s.endswith(suffix)] *)
Fixpoint endswith (s suffix : string) : bool :=
  String.eqb s suffix ||
  match s with
  | EmptyString => false
  | String _ s' => endswith s' suffix
  end.

(** [pat in s] *)
Fixpoint contains (pat s : string) : bool :=
  startswith s pat ||
  match s with
  | EmptyString => false
  | String _ s' => contains pat s'
  end.

(** [s.replace(old, new)] for one-character [old] and [new] *)
Fixpoint replace (old new : ascii) (s : string) : string :=
  match s with
  | EmptyString => EmptyString
  | String a s' =>
      String (if Ascii.eqb a old then new else a) (replace old new s')
  end.

(** [s.rstrip(c)] for a one-character [c]: every trailing [c] goes *)
Fixpoint rstrip (c : ascii) (s : string) : string :=
  match s with
  | EmptyString => EmptyString
  | String a s' =>
      match rstrip c s' with
      | EmptyString => if Ascii.eqb a c then EmptyString else String a EmptyString
      | r => String a r
      end
  end.

Fixpoint zeros (n : nat) : string :=
  match n with
  | O => EmptyString
  | S n' => String "0" (zeros n')
  end.

(** [s.zfill(width)]: zeros go after a leading sign *)
Definition zfill (width : nat) (s : string) : string :=
  if (width <=? String.length s)%nat then s
  else
    let fill := zeros (width - String.length s) in
    match s with
    | String c rest =>
        if Ascii.eqb c "+" || Ascii.eqb c "-"
        then String c (fill +:+ rest)
        else fill +:+ s
    | EmptyString => fill
    end.

(** [str(n)] for an [int] *)
Definition of_int (n : Z) : string := NilZero.string_of_int (Z.to_int n).

(** [f"{n:02d}"] *)
Definition format_02d (n : Z) : string := zfill 2 (of_int n).

Definition lower_ascii (a : ascii) : ascii :=
  let n := nat_of_ascii a in
  if ((65 <=? n) && (n <=? 90))%nat then ascii_of_nat (n + 32) else a.

(** [s.lower()] on ASCII letters *)
Fixpoint lower (s : string) : string :=
  match s with
  | EmptyString => EmptyString
  | String a s' => String (lower_ascii a) (lower s')
  end.

(** truth value of a [str] *)
Definition truthy (s : string) : bool := negb (String.eqb s EmptyString).

(** truth value of a value that is a [str] or [None] *)
Definition truthy_opt (o : option string) : bool :=
  match o with
  | Some s => truthy s
  | None => false
  end.

End PyStr.

(** ** Exceptions *)

Inductive exn_class :=
| ParseError | FileNotFoundError | TypeError | ValueError | HTTPError
| UnicodeDecodeError | TimeoutError | AttributeError | OSError.

(** An exception: its class and [str(e)]. Every class above derives from
    [Exception]. *)
Record exn := Exn { exn_cls : exn_class; exn_str : string }.

Inductive Exc (A : Type) : Type :=
| Ret (a : A)
| Raise (e : exn).
Arguments Ret {A} a.
Arguments Raise {A} e.

Definition is_ParseError (e : exn) : bool :=
  match exn_cls e with
  | ParseError => true
  | _ => false
  end.

(** ** xml.etree.ElementTree elements *)

#[local] Set Warnings "-register-all".

Inductive Element :=
| mkElement (tag : string) (text : option string) (children : list Element).

Module ET.

Definition tag (e : Element) : string :=
  match e with mkElement t _ _ => t end.

(** [e.text]: [None] for an element without character data *)
Definition text (e : Element) : option string :=
  match e with mkElement _ t _ => t end.

Definition children (e : Element) : list Element :=
  match e with mkElement _ _ c => c end.

(** [{"s3": "http://s3.amazonaws.com/doc/2006-03-01/"}] *)
Definition s3_uri : string := "http://s3.amazonaws.com/doc/2006-03-01/".

(** The tag that the path ["s3:" + name] stands for under that mapping. *)
Definition s3 (name : string) : string := "{" +:+ s3_uri +:+ "}" +:+ name.

(** [e.findall(path, namespaces)]: the direct children with that tag, in
    document order *)
Definition findall (qtag : string) (e : Element) : list Element :=
  List.filter (fun c => String.eqb (tag c) qtag) (children e).

(** [e.find(path, namespaces)]: the first such child, or [None] *)
Definition find (qtag : string) (e : Element) : option Element :=
  List.find (fun c => String.eqb (tag c) qtag) (children e).

End ET.

(** ** Responses of [requests] *)

Record Response := {
  status_code : Z;
  (** the header [content-length], when the server sent it *)
  content_length : option string;
  (** the body as it arrives, and the exception that cuts it short *)
  body_chunks : list string;
  body_error : option exn
}.

(** [response.raise_for_status()] *)
Definition raise_for_status (r : Response) : Exc unit :=
  if (400 <=? status_code r) && (status_code r <? 600)
  then Raise (Exn HTTPError (PyStr.of_int (status_code r) +:+ " Error"))
  else Ret tt.

(** [response.content] *)
Definition response_content (r : Response) : Exc string :=
  match body_error r with
  | Some e => Raise e
  | None => Ret (String.concat "" (body_chunks r))
  end.

(** [Retry(total=retries, backoff_factor=backoff_factor)] mounted on a
    session *)
Record Session := { retry_total : Z; retry_backoff_factor : Q }.

(** ** The environment: interpreter, libraries, network *)

Record Env := {
  (** [ET.fromstring] *)
  ET_fromstring : string -> Exc Element;
  (** [session.get(url, headers=HEADERS)] on a session with that retry
      adapter: the response, or the exception [requests] raises *)
  session_get : Session -> string -> Exc Response;
  (** [bytes.decode("utf-8")], also the decoding of a file read as text *)
  bytes_decode : string -> Exc string;
  (** [int(s)] for a [str] *)
  py_int : string -> Exc Z;
  (** [Path(p) / s] for a [str] operand *)
  path_join : string -> string -> string;
  (** [Path(p).parent] *)
  path_parent : string -> string;
  (** [Path(p).name] *)
  path_name : string -> string;
  (** [urljoin(base, key)] *)
  urljoin : string -> string -> string;
  (** [result_async.get(timeout=60)] of the task for a prefix: [Some e]
      when the call raises [e] instead of delivering the worker's tuple *)
  pool_get : option string -> option exn;
  (** [directory.rglob("*.xml")] over the files that exist *)
  rglob_xml : string -> list string -> list string;
  (** the line the user types at [input(...)] *)
  stdin_line : string
}.

(** ** The state: file system, request trace, logger *)

(** What [progress_callback] hands to [logger.info]. *)
Inductive Msg :=
| MsgDownloaded (name : string)
| MsgFailed (prefix : option string) (error_msg : string)
| MsgException (prefix : option string) (error_msg : string).

Record State := {
  files : gmap string string;
  dirs : gset string;
  (** ghost: the level of the last progress line that announced one *)
  level_shown : Z;
  (** ghost: every [session.get], with [level_shown] at that moment *)
  requests : list (Z * string);
  (** the records of the logger *)
  log : list Msg
}.

Definition M (A : Type) : Type := State -> Exc A * State.

Definition ret {A} (a : A) : M A := fun st => (Ret a, st).
Definition raise {A} (e : exn) : M A := fun st => (Raise e, st).
Definition bind {A B} (m : M A) (k : A -> M B) : M B :=
  fun st =>
    match m st with
    | (Ret a, st') => k a st'
    | (Raise e, st') => (Raise e, st')
    end.
Definition lift {A} (r : Exc A) : M A := fun st => (r, st).

(** [try: body  except Exception as e: handler e]; what [body] did to the
    state before it raised stays done. *)
Definition try_except {A} (body : M A) (handler : exn -> M A) : M A :=
  fun st =>
    match body st with
    | (Ret a, st') => (Ret a, st')
    | (Raise e, st') => handler e st'
    end.

Notation "x <- m ;; k" := (bind m (fun x => k))
  (at level 100, m at next level, right associativity).
Notation "m ;;; k" := (bind m (fun _ => k))
  (at level 100, right associativity).

Module Fs.

(** [path.exists()] *)
Definition exists_ (path : string) : M bool :=
  fun st => (Ret (bool_decide (path ∈ dom (files st)) ||
                  bool_decide (path ∈ dirs st)), st).

(** [os.path.isfile(path)] *)
Definition isfile (path : string) : M bool :=
  fun st => (Ret (bool_decide (path ∈ dom (files st))), st).

(** [path.mkdir(exist_ok=True, parents=True)] *)
Definition mkdir (path : string) : M unit :=
  fun st => (Ret tt,
    {| files := files st; dirs := {[ path ]} ∪ dirs st;
       level_shown := level_shown st; requests := requests st;
       log := log st |}).

Definition set_file (path data : string) (st : State) : State :=
  {| files := <[ path := data ]> (files st); dirs := dirs st;
     level_shown := level_shown st; requests := requests st;
     log := log st |}.

(** [open(path, "wb")] or [open(path, "w")]: the file exists and is empty *)
Definition open_w (path : string) : M unit :=
  fun st => (Ret tt, set_file path "" st).

(** [open(path, "a")]: the file exists, its content stays *)
Definition open_a (path : string) : M unit :=
  fun st => (Ret tt, set_file path (default "" (files st !! path)) st).

(** [f.write(data)] on the open file at [path] *)
Definition write (path data : string) : M unit :=
  fun st => (Ret tt, set_file path (default "" (files st !! path) +:+ data) st).

(** [open(path, "r").read()] *)
Definition read (W : Env) (path : string) : M string :=
  fun st =>
    match files st !! path with
    | None => (Raise (Exn FileNotFoundError path), st)
    | Some data => (bytes_decode W data, st)
    end.

(** [path.unlink()] *)
Definition unlink (path : string) : M unit :=
  fun st =>
    match files st !! path with
    | None => (Raise (Exn FileNotFoundError path), st)
    | Some _ =>
        (Ret tt,
         {| files := delete path (files st); dirs := dirs st;
            level_shown := level_shown st; requests := requests st;
            log := log st |})
    end.

End Fs.

(** The progress line that names the level being processed. *)
Definition announce_level (level : Z) : M unit :=
  fun st => (Ret tt,
    {| files := files st; dirs := dirs st; level_shown := level;
       requests := requests st; log := log st |}).

(** [session.get(url, headers=HEADERS)], recorded in the trace. *)
Definition http_get (W : Env) (session : Session) (url : string) : M Response :=
  fun st =>
    (session_get W session url,
     {| files := files st; dirs := dirs st; level_shown := level_shown st;
        requests := requests st ++ [(level_shown st, url)]; log := log st |}).

(** [logger.info(message)] *)
Definition logger_info (message : Msg) : M unit :=
  fun st => (Ret tt,
    {| files := files st; dirs := dirs st; level_shown := level_shown st;
       requests := requests st; log := log st ++ [message] |}).

(** [Path(p) / x] where [x] may be [None]: pathlib raises [TypeError]. *)
Definition path_div (W : Env) (p : string) (x : option string) : Exc string :=
  match x with
  | Some s => Ret (path_join W p s)
  | None =>
      Raise (Exn TypeError
        "unsupported operand type(s) for /: 'PosixPath' and 'NoneType'")
  end.

(** [base + x] where [x] may be [None]. *)
Definition str_add (base : string) (x : option string) : Exc string :=
  match x with
  | Some s => Ret (base +:+ s)
  | None =>
      Raise (Exn TypeError "can only concatenate str (not 'NoneType') to str")
  end.

(** [f"{x}"] for a value that is a [str] or [None]. *)
Definition format_opt (x : option string) : string :=
  match x with
  | Some s => s
  | None => "None"
  end.

Definition newline : string := String (ascii_of_nat 10) EmptyString.

(** ** utils.py *)

Module Utils.

Definition save_error_url (write_text loacl : string) : M unit :=
  isfile <- Fs.isfile loacl ;;
  (if isfile : bool then Fs.open_a loacl else Fs.open_w loacl) ;;;
  Fs.write loacl (write_text +:+ newline).

Definition send_xml_request_with_retry (W : Env) (url : string)
    (retries : Z) (backoff_factor : Q) : M string :=
  let session :=
    {| retry_total := retries; retry_backoff_factor := backoff_factor |} in
  response <- http_get W session url ;;
  lift (raise_for_status response) ;;;
  lift (response_content response).

(** The body of the [for] loop: one [CommonPrefixes] element. *)
Definition add_common_prefix (prefixes : list (option string))
    (common_prefix_elem : Element) : list (option string) :=
  match ET.find (ET.s3 "Prefix") common_prefix_elem with
  | Some prefix_elem => prefixes ++ [ET.text prefix_elem]
  | None => prefixes
  end.

Definition get_common_prefixes (W : Env) (xml_string : string)
    : Exc (list (option string)) :=
  match ET_fromstring W xml_string with
  | Ret root =>
      Ret (fold_left add_common_prefix
             (ET.findall (ET.s3 "CommonPrefixes") root) [])
  | Raise e =>
      (* except ET.ParseError: print, return [] *)
      if is_ParseError e then Ret [] else Raise e
  end.

Definition add_zip_file (zip_files : list string) (contents_elem : Element)
    : list string :=
  match ET.find (ET.s3 "Key") contents_elem with
  | Some key_elem =>
      match ET.text key_elem with
      | Some text =>
          if PyStr.truthy text && PyStr.endswith text ".zip"
          then zip_files ++ [text]
          else zip_files
      | None => zip_files
      end
  | None => zip_files
  end.

Definition get_zip_files_from_xml (W : Env) (xml_string : string)
    : Exc (list string) :=
  match ET_fromstring W xml_string with
  | Ret root =>
      Ret (fold_left add_zip_file (ET.findall (ET.s3 "Contents") root) [])
  | Raise e => if is_ParseError e then Ret [] else Raise e
  end.

Definition save_xml_file (xml_content file_path : string) : M bool :=
  try_except
    (Fs.open_w file_path ;;;
     Fs.write file_path xml_content ;;;
     ret true)
    (fun _ => ret false).

(** [f"directory_{prefix.replace('/', '_').rstrip('_')}.xml"] *)
Definition xml_filename (prefix : string) : string :=
  "directory_" +:+ PyStr.rstrip "_" (PyStr.replace "/" "_" prefix) +:+ ".xml".

(** The same expression on a value that may be [None]. *)
Definition xml_filename_of (prefix : option string) : Exc string :=
  match prefix with
  | Some p => Ret (xml_filename p)
  | None =>
      Raise (Exn AttributeError "'NoneType' object has no attribute 'replace'")
  end.

(** [f"处理目录失败 {prefix}: {e}"] *)
Definition error_msg (prefix : option string) (e : exn) : string :=
  "处理目录失败 " +:+ format_opt prefix +:+ ": " +:+ exn_str e.

(** The statements of the [try] block before the loop over the children:
    they yield [child_prefixes]. *)
Definition fetch_directory (W : Env) (s3_base_url : string)
    (prefix : option string) (local_dir : string)
    : M (list (option string)) :=
  full_url <- lift (str_add s3_base_url prefix) ;;
  xml_content <- send_xml_request_with_retry W full_url 3 (1 # 2) ;;
  xml_filename <- lift (xml_filename_of prefix) ;;
  let xml_file_path := path_join W local_dir xml_filename in
  save_xml_file xml_content xml_file_path ;;;
  lift (get_common_prefixes W xml_content).

(** [for child_prefix in child_prefixes: visit(child_prefix)], where a
    visit that raises ends the loop and [None] is "out of fuel". *)
Fixpoint for_each_child
    (visit : option string -> State -> option (Exc unit * State))
    (child_prefixes : list (option string)) (st : State)
    : option (Exc unit * State) :=
  match child_prefixes with
  | [] => Some (Ret tt, st)
  | child_prefix :: rest =>
      match visit child_prefix st with
      | None => None
      | Some (Raise e, st') => Some (Raise e, st')
      | Some (Ret _, st') => for_each_child visit rest st'
      end
  end.

(** [fuel] bounds the nesting of the calls; [None] is "out of fuel". *)
Fixpoint process_s3_directory_recursive (fuel : nat) (W : Env)
    (s3_base_url : string) (prefix : option string) (save_dir : string)
    (max_depth current_depth : Z) (st : State)
    : option (Exc unit * State) :=
  match fuel with
  | O => None
  | S fuel' =>
      if current_depth >=? max_depth then Some (Ret tt, st)
      else
        let st := snd (announce_level current_depth st) in
        match path_div W save_dir prefix with
        | Raise e => Some (Raise e, st)
        | Ret local_dir =>
            let st := snd (Fs.mkdir local_dir st) in
            let attempt :=
              match fetch_directory W s3_base_url prefix local_dir st with
              | (Raise e, st1) => Some (Raise e, st1)
              | (Ret child_prefixes, st1) =>
                  for_each_child
                    (fun child_prefix =>
                       process_s3_directory_recursive fuel' W s3_base_url
                         child_prefix save_dir max_depth (current_depth + 1))
                    child_prefixes st1
              end in
            match attempt with
            | None => None
            | Some (Ret _, st2) => Some (Ret tt, st2)
            | Some (Raise e, st2) =>
                (* except Exception as e *)
                Some (save_error_url (error_msg prefix e)
                        (path_join W save_dir "errors.log") st2)
            end
        end
  end.

(** The call as [download_xml.py] makes it, with fuel for every level the
    depth bound allows. *)
Definition crawl (W : Env) (s3_base_url : string) (prefix : string)
    (save_dir : string) (max_depth : Z) (st : State)
    : option (Exc unit * State) :=
  process_s3_directory_recursive (S (Z.to_nat max_depth)) W s3_base_url
    (Some prefix) save_dir max_depth 0 st.

End Utils.

(** [range(n)] *)
Definition py_range (n : Z) : list Z := map Z.of_nat (seq 0 (Z.to_nat n)).

(** [list(set(l))]: the elements of the set, each once, in the order the
    set holds them. *)
Definition list_set (l : list (option string)) : list (option string) :=
  elements (list_to_set l : gset (option string)).

(** ** download_xml_multiprocess.py *)

Module DownloadXmlMultiprocess.

Definition S3_BASE_URL : string :=
  "https://s3-ap-northeast-1.amazonaws.com/data.binance.vision?delimiter=/&prefix=".

Definition setup_session (retries : Z) (backoff_factor : Q) : Session :=
  {| retry_total := retries; retry_backoff_factor := backoff_factor |}.

Definition add_common_prefix (prefixes : list (option string))
    (common_prefix_elem : Element) : list (option string) :=
  match ET.find (ET.s3 "Prefix") common_prefix_elem with
  | Some prefix_elem => prefixes ++ [ET.text prefix_elem]
  | None => prefixes
  end.

Definition get_common_prefixes (W : Env) (xml_string : string)
    : Exc (list (option string)) :=
  match ET_fromstring W xml_string with
  | Ret root =>
      Ret (fold_left add_common_prefix
             (ET.findall (ET.s3 "CommonPrefixes") root) [])
  | Raise e => if is_ParseError e then Ret [] else Raise e
  end.

(** [(prefix, save_dir, retries)] *)
Definition Task : Type := option string * string * Z.

(** [(success, error_msg, xml_path, child_prefixes)] *)
Definition WorkerResult : Type :=
  bool * string * string * list (option string).

Definition xml_filename_of (prefix : option string) : Exc string :=
  match prefix with
  | Some p =>
      Ret ("directory_" +:+ PyStr.rstrip "_" (PyStr.replace "/" "_" p)
           +:+ ".xml")
  | None =>
      Raise (Exn AttributeError "'NoneType' object has no attribute 'replace'")
  end.

Definition download_xml_worker (W : Env) (args_tuple : Task)
    : M WorkerResult :=
  let '(prefix, save_dir, retries) := args_tuple in
  let session := setup_session retries (1 # 2) in
  try_except
    (local_dir <- lift (path_div W save_dir prefix) ;;
     Fs.mkdir local_dir ;;;
     full_url <- lift (str_add S3_BASE_URL prefix) ;;
     response <- http_get W session full_url ;;
     lift (raise_for_status response) ;;;
     xml_content <- lift (response_content response) ;;
     xml_filename <- lift (xml_filename_of prefix) ;;
     let xml_file_path := path_join W local_dir xml_filename in
     Fs.open_w xml_file_path ;;;
     Fs.write xml_file_path xml_content ;;;
     xml_string <- lift (bytes_decode W xml_content) ;;
     child_prefixes <- lift (get_common_prefixes W xml_string) ;;
     ret (true, "", xml_file_path, child_prefixes))
    (fun e => ret (false, exn_str e, "", [])).

(** The first loop over the tasks: [pool.apply_async] hands each task to
    a worker process. The workers act on one file system; their effects
    are taken in the order of the tasks. *)
Fixpoint submit_all (W : Env) (download_tasks : list Task)
    : M (list (WorkerResult * Task)) :=
  match download_tasks with
  | [] => ret []
  | task :: rest =>
      result <- download_xml_worker W task ;;
      results <- submit_all W rest ;;
      ret ((result, task) :: results)
  end.

(** [result_async.get(timeout=60)] *)
Definition result_get (W : Env) (result : WorkerResult) (task : Task)
    : Exc WorkerResult :=
  match pool_get W (fst (fst task)) with
  | Some e => Raise e
  | None => Ret result
  end.

(** The local variables of [process_level_with_multiprocessing]. *)
Record Level := {
  next_level_prefixes : list (option string);
  successful_downloads : Z;
  failed_downloads : Z;
  failed_tasks : list (option string * string)
}.

Definition call (progress_callback : option (Msg -> M unit)) (message : Msg)
    : M unit :=
  match progress_callback with
  | Some f => f message
  | None => ret tt
  end.

(** The body of the second loop: one result. *)
Definition collect (W : Env) (progress_callback : option (Msg -> M unit))
    (lv : Level) (item : WorkerResult * Task) : M Level :=
  let '(result_async, task) := item in
  try_except
    (r <- lift (result_get W result_async task) ;;
     let '(success, error_msg, xml_path, child_prefixes) := r in
     if success : bool then
       call progress_callback (MsgDownloaded (path_name W xml_path)) ;;;
       ret {| next_level_prefixes := next_level_prefixes lv ++ child_prefixes;
              successful_downloads := successful_downloads lv + 1;
              failed_downloads := failed_downloads lv;
              failed_tasks := failed_tasks lv |}
     else
       call progress_callback (MsgFailed (fst (fst task)) error_msg) ;;;
       ret {| next_level_prefixes := next_level_prefixes lv;
              successful_downloads := successful_downloads lv;
              failed_downloads := failed_downloads lv + 1;
              failed_tasks :=
                failed_tasks lv ++ [(fst (fst task), error_msg)] |})
    (fun e =>
       call progress_callback (MsgException (fst (fst task)) (exn_str e)) ;;;
       ret {| next_level_prefixes := next_level_prefixes lv;
              successful_downloads := successful_downloads lv;
              failed_downloads := failed_downloads lv + 1;
              failed_tasks :=
                failed_tasks lv ++ [(fst (fst task), exn_str e)] |}).

Fixpoint collect_all (W : Env) (progress_callback : option (Msg -> M unit))
    (lv : Level) (results : list (WorkerResult * Task)) : M Level :=
  match results with
  | [] => ret lv
  | item :: rest =>
      lv' <- collect W progress_callback lv item ;;
      collect_all W progress_callback lv' rest
  end.

Definition process_level_with_multiprocessing (W : Env)
    (current_prefixes : list (option string)) (save_dir : string)
    (workers retries level : Z)
    (progress_callback : option (Msg -> M unit))
    : M (list (option string) * Z * Z) :=
  match current_prefixes with
  | [] => ret ([], 0, 0)
  | _ :: _ =>
      announce_level level ;;;
      let download_tasks :=
        map (fun prefix => (prefix, save_dir, retries)) current_prefixes in
      results <- submit_all W download_tasks ;;
      lv <- collect_all W progress_callback
              {| next_level_prefixes := []; successful_downloads := 0;
                 failed_downloads := 0; failed_tasks := [] |} results ;;
      ret (next_level_prefixes lv, successful_downloads lv,
           failed_downloads lv)
  end.

Record Args := {
  workers : Z;
  max_depth : Z;
  retries : Z;
  save_dir : string;
  start_prefix : string
}.

(** The variables of [main] that outlive an iteration; [frontiers] is
    ghost: the lists handed to [process_level_with_multiprocessing], in
    the order of the levels. *)
Record Run := {
  current_prefixes : list (option string);
  total_successful : Z;
  total_failed : Z;
  frontiers : list (list (option string))
}.

(** [for level in range(args.max_depth): ...], on the levels still to
    come. *)
Fixpoint level_loop (W : Env) (args : Args) (levels : list Z) (r : Run)
    : M Run :=
  match levels with
  | [] => ret r
  | level :: levels' =>
      match current_prefixes r with
      | [] => ret r
      | _ :: _ =>
          let current := list_set (current_prefixes r) in
          res <- process_level_with_multiprocessing W current
                   (save_dir args) (workers args) (retries args) (level + 1)
                   (Some logger_info) ;;
          let '(next_prefixes, successful, failed) := res in
          let r' :=
            {| current_prefixes := next_prefixes;
               total_successful := total_successful r + successful;
               total_failed := total_failed r + failed;
               frontiers := frontiers r ++ [current] |} in
          match next_prefixes with
          | [] => ret r'
          | _ :: _ => level_loop W args levels' r'
          end
      end
  end.

Definition main (W : Env) (args : Args) : M Run :=
  Fs.mkdir (save_dir args) ;;;
  level_loop W args (py_range (max_depth args))
    {| current_prefixes := [Some (start_prefix args)];
       total_successful := 0; total_failed := 0; frontiers := [] |}.

End DownloadXmlMultiprocess.

(** ** download_zip_data.py *)

Module DownloadZipData.

Definition S3_BASE_URL : string := "https://data.binance.vision/".

Definition setup_session (retries : Z) (backoff_factor : Q) : Session :=
  {| retry_total := retries; retry_backoff_factor := backoff_factor |}.

(** The body of the loop over the [Contents] elements. *)
Definition add_zip_file (zip_files : list string) (contents_elem : Element)
    : list string :=
  match ET.find (ET.s3 "Key") contents_elem with
  | Some key_elem =>
      match ET.text key_elem with
      | Some text =>
          if PyStr.truthy text &&
             (PyStr.endswith text ".zip" &&
              negb (PyStr.endswith text ".zip.CHECKSUM"))
          then zip_files ++ [text]
          else zip_files
      | None => zip_files
      end
  | None => zip_files
  end.

(** The three handlers only print; each is reached before the loop has
    run, so [zip_files] is still empty when they return it. *)
Definition extract_zip_files_from_xml (W : Env) (xml_file_path : string)
    : M (list string) :=
  try_except
    (xml_content <- Fs.read W xml_file_path ;;
     root <- lift (ET_fromstring W xml_content) ;;
     ret (fold_left add_zip_file (ET.findall (ET.s3 "Contents") root) []))
    (fun _ => ret []).

Definition add_if_dated (date_pattern : string) (filtered_files : list string)
    (zip_file : string) : list string :=
  if PyStr.contains date_pattern zip_file
  then filtered_files ++ [zip_file]
  else filtered_files.

Definition filter_files_by_date (zip_files : list string)
    (year month : option string) : list string :=
  match year, month with
  | Some y, Some m =>
      if negb (PyStr.truthy y) || negb (PyStr.truthy m) then zip_files
      else
        let date_pattern := y +:+ "-" +:+ PyStr.zfill 2 m in
        fold_left (add_if_dated date_pattern) zip_files []
  | _, _ => zip_files
  end.

(** [int(response.headers.get("content-length", 0))] *)
Definition total_size_of (W : Env) (response : Response) : Exc Z :=
  match content_length response with
  | Some v => py_int W v
  | None => Ret 0
  end.

(** [for chunk in response.iter_content(chunk_size=8192): if chunk:
    f.write(chunk)]; the iteration raises when the body is cut short. *)
Fixpoint write_chunks (local_path : string) (chunks : list string)
    (cut : option exn) : M unit :=
  match chunks with
  | [] =>
      match cut with
      | Some e => raise e
      | None => ret tt
      end
  | chunk :: rest =>
      (if PyStr.truthy chunk then Fs.write local_path chunk else ret tt) ;;;
      write_chunks local_path rest cut
  end.

(** [(url, local_path, retries)] *)
Definition Task : Type := string * string * Z.

Definition download_file_worker (W : Env) (args_tuple : Task)
    : M (bool * string * string) :=
  let '(url, local_path, retries) := args_tuple in
  let session := setup_session retries (1 # 2) in
  try_except
    (there <- Fs.exists_ local_path ;;
     if there : bool then ret (true, url, local_path)
     else
       Fs.mkdir (path_parent W local_path) ;;;
       response <- http_get W session url ;;
       lift (raise_for_status response) ;;;
       total_size <- lift (total_size_of W response) ;;
       Fs.open_w local_path ;;;
       (if total_size =? 0 then
          content <- lift (response_content response) ;;
          Fs.write local_path content
        else
          write_chunks local_path (body_chunks response)
            (body_error response)) ;;;
       ret (true, url, local_path))
    (fun _ =>
       there <- Fs.exists_ local_path ;;
       (if there : bool
        then try_except (Fs.unlink local_path) (fun _ => ret tt)
        else ret tt) ;;;
       ret (false, url, local_path)).

Definition find_all_xml_files (W : Env) (data_dir : string)
    : M (list string) :=
  fun st => (Ret (rglob_xml W data_dir (map fst (map_to_list (files st)))), st).

Record Args := {
  year : option string;
  month : option string;
  data_dir : string;
  download_dir : string;
  workers : Z;
  retries : Z
}.

(** Lines 226 to 246 of [main]: [inl code] is [sys.exit(code)], [inr] the
    values of [year] and [month] afterwards. *)
Definition validate (W : Env) (args : Args)
    : Exc (Z + option string * option string) :=
  if PyStr.truthy_opt (year args) || PyStr.truthy_opt (month args) then
    if negb (PyStr.truthy_opt (year args) && PyStr.truthy_opt (month args))
    then Ret (inl 1)
    else
      let checked : Exc (option string * option string) :=
        match py_int W (format_opt (year args)) with
        | Raise e => Raise e
        | Ret year_int =>
            match py_int W (format_opt (month args)) with
            | Raise e => Raise e
            | Ret month_int =>
                if negb ((1 <=? month_int) && (month_int <=? 12))
                then Raise (Exn ValueError "月份必须在1-12之间")
                else Ret (year args, Some (PyStr.format_02d month_int))
            end
        end in
      match checked with
      | Ret ym => Ret (inr ym)
      | Raise e =>
          (* except ValueError *)
          match exn_cls e with
          | ValueError => Ret (inl 1)
          | _ => Raise e
          end
      end
  else Ret (inr (None, None)).

(** What a run of [main] reports. *)
Record Report := {
  exit_status : Z;
  (** [filtered_files], the keys listed before the download *)
  selected : list string;
  successful_downloads : Z;
  failed_downloads : Z;
  failed_files : list string
}.

Definition exit_with (code : Z) (selected : list string) : M Report :=
  ret {| exit_status := code; selected := selected;
         successful_downloads := 0; failed_downloads := 0;
         failed_files := [] |}.

Fixpoint extract_all (W : Env) (xml_files : list string)
    (all_zip_files : list string) : M (list string) :=
  match xml_files with
  | [] => ret all_zip_files
  | xml_file :: rest =>
      zip_files <- extract_zip_files_from_xml W xml_file ;;
      extract_all W rest (all_zip_files ++ zip_files)
  end.

(** The pool of download threads: every task runs, the results are taken
    as they come. The tasks are taken in the order of the list. *)
Fixpoint download_all (W : Env) (download_tasks : list Task) (rep : Report)
    : M Report :=
  match download_tasks with
  | [] => ret rep
  | task :: rest =>
      res <- download_file_worker W task ;;
      let '(success, result_url, result_path) := res in
      download_all W rest
        (if success : bool then
           {| exit_status := exit_status rep; selected := selected rep;
              successful_downloads := successful_downloads rep + 1;
              failed_downloads := failed_downloads rep;
              failed_files := failed_files rep |}
         else
           {| exit_status := exit_status rep; selected := selected rep;
              successful_downloads := successful_downloads rep;
              failed_downloads := failed_downloads rep + 1;
              failed_files := failed_files rep ++ [result_url] |})
  end.

Definition confirmed (response : string) : bool :=
  let r := PyStr.lower response in
  String.eqb r "y" || String.eqb r "yes".

Definition main (W : Env) (args : Args) : M Report :=
  v <- lift (validate W args) ;;
  match v with
  | inl code => exit_with code []
  | inr (year, month) =>
      there <- Fs.exists_ (data_dir args) ;;
      if negb there then exit_with 1 []
      else
        xml_files <- find_all_xml_files W (data_dir args) ;;
        match xml_files with
        | [] => exit_with 1 []
        | _ :: _ =>
            all_zip_files <- extract_all W xml_files [] ;;
            let filtered_files :=
              if PyStr.truthy_opt year && PyStr.truthy_opt month
              then filter_files_by_date all_zip_files year month
              else all_zip_files in
            match filtered_files with
            | [] => exit_with 0 []
            | _ :: _ =>
                if negb (confirmed (stdin_line W))
                then exit_with 0 filtered_files
                else
                  Fs.mkdir (download_dir args) ;;;
                  let download_tasks :=
                    map (fun file_key =>
                           (urljoin W S3_BASE_URL file_key,
                            path_join W (download_dir args) file_key,
                            retries args)) filtered_files in
                  download_all W download_tasks
                    {| exit_status := 0; selected := filtered_files;
                       successful_downloads := 0; failed_downloads := 0;
                       failed_files := [] |}
            end
        end
  end.

End DownloadZipData.

(** ** count_xml_zip_files.py *)

Module CountXmlZipFiles.

Definition add_zip_file (zip_files : list string) (contents_elem : Element)
    : list string :=
  match ET.find (ET.s3 "Key") contents_elem with
  | Some key_elem =>
      match ET.text key_elem with
      | Some text =>
          if PyStr.truthy text &&
             (PyStr.endswith text ".zip" &&
              negb (PyStr.endswith text ".zip.CHECKSUM"))
          then zip_files ++ [text]
          else zip_files
      | None => zip_files
      end
  | None => zip_files
  end.

(** [(path, number of zip files, zip files, error message)] *)
Definition count_zip_files_in_xml (W : Env) (xml_file_path : string)
    : M (string * Z * list string * string) :=
  try_except
    (xml_content <- Fs.read W xml_file_path ;;
     root <- lift (ET_fromstring W xml_content) ;;
     let zip_files :=
       fold_left add_zip_file (ET.findall (ET.s3 "Contents") root) [] in
     ret (xml_file_path, Z.of_nat (length zip_files), zip_files, ""))
    (fun e =>
       match exn_cls e with
       | ParseError =>
           ret (xml_file_path, 0, [], "XML解析错误: " +:+ exn_str e)
       | FileNotFoundError => ret (xml_file_path, 0, [], "文件不存在")
       | _ => ret (xml_file_path, 0, [], "处理错误: " +:+ exn_str e)
       end).

End CountXmlZipFiles.

(** ** Vocabulary of the properties *)

(** A key is wanted: it ends with ".zip" and not with ".zip.CHECKSUM". *)
Definition Wanted (key : string) : Prop :=
  (∃ p, key = p +:+ ".zip") ∧ ¬ (∃ p, key = p +:+ ".zip.CHECKSUM").

(** What [main] of download_zip_data.py returns at [sys.exit(1)] in the
    validation of its arguments. *)
Definition usage_error : DownloadZipData.Report :=
  {| DownloadZipData.exit_status := 1; DownloadZipData.selected := [];
     DownloadZipData.successful_downloads := 0;
     DownloadZipData.failed_downloads := 0;
     DownloadZipData.failed_files := [] |}.

(** The outcome of one listing fetch: [session.get], [raise_for_status],
    [.content]. *)
Definition fetched (W : Env) (session : Session) (url : string) : Exc string :=
  match session_get W session url with
  | Raise e => Raise e
  | Ret response =>
      match raise_for_status response with
      | Raise e => Raise e
      | Ret _ => response_content response
      end
  end.

Definition empty_state : State :=
  {| files := ∅; dirs := ∅; level_shown := 0; requests := []; log := [] |}.

(** The tuple a worker of the level-synchronized crawler returns for a
    task; it does not depend on the state the worker starts in. *)
Definition worker_outcome (W : Env) (task : DownloadXmlMultiprocess.Task)
    : DownloadXmlMultiprocess.WorkerResult :=
  match fst (DownloadXmlMultiprocess.download_xml_worker W task empty_state) with
  | Ret r => r
  | Raise _ => (false, "", "", [])
  end.

(** The child prefixes the coordinator receives for a task: those of a
    worker that reported success and whose result was delivered. *)
Definition children_received (W : Env) (task : DownloadXmlMultiprocess.Task)
    : list (option string) :=
  match DownloadXmlMultiprocess.result_get W (worker_outcome W task) task with
  | Ret (true, _, _, child_prefixes) => child_prefixes
  | _ => []
  end.

(** The record the logger receives for a task. *)
Definition level_record (W : Env) (task : DownloadXmlMultiprocess.Task) : Msg :=
  match DownloadXmlMultiprocess.result_get W (worker_outcome W task) task with
  | Ret (true, _, xml_path, _) => MsgDownloaded (path_name W xml_path)
  | Ret (false, error_msg, _, _) => MsgFailed (fst (fst task)) error_msg
  | Raise e => MsgException (fst (fst task)) (exn_str e)
  end.

Definition is_failure_record (m : Msg) : bool :=
  match m with
  | MsgDownloaded _ => false
  | _ => true
  end.

(** The request a worker makes for a prefix at a level, if any. *)
Definition level_request (level : Z) (prefix : option string)
    : option (Z * string) :=
  match prefix with
  | Some p => Some (level, DownloadXmlMultiprocess.S3_BASE_URL +:+ p)
  | None => None
  end.





(** A listing has a [CommonPrefixes] element whose [Prefix] child is there
    and empty. *)
Definition has_empty_prefix (root : Element) : Prop :=
  ∃ common_prefix_elem prefix_elem,
    common_prefix_elem ∈ ET.findall (ET.s3 "CommonPrefixes") root ∧
    ET.find (ET.s3 "Prefix") common_prefix_elem = Some prefix_elem ∧
    ET.text prefix_elem = None.

(** [[a]] for [Some a], [[]] for [None]. *)
Definition option_list {A} (o : option A) : list A :=
  match o with Some a => [a] | None => [] end.

(** The task [main] makes for a prefix. *)
Definition task_of (save_dir : string) (retries : Z) (prefix : option string)
    : DownloadXmlMultiprocess.Task := (prefix, save_dir, retries).

(** What the second loop of a level has gathered after the tasks [done]. *)
Definition gathered (W : Env) (lv : DownloadXmlMultiprocess.Level)
    (done : list DownloadXmlMultiprocess.Task)
    : DownloadXmlMultiprocess.Level :=
  {| DownloadXmlMultiprocess.next_level_prefixes :=
       DownloadXmlMultiprocess.next_level_prefixes lv ++
       flat_map (children_received W) done;
     DownloadXmlMultiprocess.successful_downloads :=
       DownloadXmlMultiprocess.successful_downloads lv +
       Z.of_nat (length (List.filter
         (fun t => negb (is_failure_record (level_record W t))) done));
     DownloadXmlMultiprocess.failed_downloads :=
       DownloadXmlMultiprocess.failed_downloads lv +
       Z.of_nat (length (List.filter
         (fun t => is_failure_record (level_record W t)) done));
     DownloadXmlMultiprocess.failed_tasks :=
       DownloadXmlMultiprocess.failed_tasks lv ++
       omap (fun t : DownloadXmlMultiprocess.Task =>
               match level_record W t with
               | MsgDownloaded _ => None
               | MsgFailed p e | MsgException p e => Some (p, e)
               end) done |}.

(** The frontiers that follow the list [cur] of prefixes found so far: each
    is the set of what the one before it yielded. *)
Fixpoint chained (W : Env) (save_dir : string) (retries : Z)
    (cur : list (option string)) (Fs : list (list (option string))) : Prop :=
  match Fs with
  | [] => True
  | F :: Fs' =>
      cur ≠ [] ∧ F = list_set cur ∧
      chained W save_dir retries
        (flat_map (children_received W) (map (task_of save_dir retries) F)) Fs'
  end.

(** The crawl stopped for want of prefixes: the list found last is empty. *)
Fixpoint ended (W : Env) (save_dir : string) (retries : Z)
    (cur : list (option string)) (Fs : list (list (option string))) : Prop :=
  match Fs with
  | [] => cur = []
  | F :: Fs' =>
      ended W save_dir retries
        (flat_map (children_received W) (map (task_of save_dir retries) F)) Fs'
  end.

(** The records the logger receives for a frontier, one per prefix. *)
Definition records_of (W : Env) (save_dir : string) (retries : Z)
    (F : list (option string)) : list Msg :=
  map (level_record W) (map (task_of save_dir retries) F).

(** The requests made for the frontier of depth [level], under the label
    [level + 1] that [main] gives the level. *)
Definition requests_of (level : Z) (F : list (option string))
    : list (Z * string) :=
  omap (level_request (level + 1)) F.

(** The state after one more request. *)
Definition requested (st : State) (rq : Z * string) : State :=
  {| files := files st; dirs := dirs st; level_shown := level_shown st;
     requests := requests st ++ [rq]; log := log st |}.

(** The session of [send_xml_request_with_retry] with its defaults. *)
Definition default_session : Session :=
  {| retry_total := 3; retry_backoff_factor := 1 # 2 |}.

(** What one [CommonPrefixes] element adds to the list of prefixes. *)
Definition prefix_texts (common_prefix_elem : Element) : list (option string) :=
  match ET.find (ET.s3 "Prefix") common_prefix_elem with
  | Some prefix_elem => [ET.text prefix_elem]
  | None => []
  end.


(** [path] exists: as a file or as a directory. *)
Definition exists_in (st : State) (path : string) : Prop :=
  path ∈ dom (files st) ∨ path ∈ dirs st.

(** Only the file at [path] may differ, and no directory is lost. *)
Definition touches (path : string) (st st' : State) : Prop :=
  (∀ q, q ≠ path → files st' !! q = files st !! q) ∧ dirs st ⊆ dirs st'.

(** ** A fixture: a small remote tree *)

Module Fixture.

Definition contents_of (key : string) : Element :=
  mkElement (ET.s3 "Contents") None
    [mkElement (ET.s3 "Key") (Some key) [];
     mkElement (ET.s3 "Size") (Some "1024") []].

Definition common_prefix (prefix : option string) : Element :=
  mkElement (ET.s3 "CommonPrefixes") None
    [mkElement (ET.s3 "Prefix") prefix []].

Definition listing (prefixes : list (option string)) (keys : list string)
    : Element :=
  mkElement (ET.s3 "ListBucketResult") None
    (mkElement (ET.s3 "Name") (Some "data.binance.vision") []
     :: map common_prefix prefixes ++ map contents_of keys).

(** The documents the parser knows; everything else is not XML. *)
Definition documents : list (string * Element) :=
  [ ("<listing data/>",
     listing [Some "data/a/"; Some "data/b/"; Some "data/a/"; None] []);
    ("<listing data/a/>",
     listing [] ["data/a/x-2024-04.zip"; "data/a/x-2024-04.zip.CHECKSUM";
                 "data/a/x-2024-05.zip"; "data/a/readme.json"]);
    ("<listing empty/>", listing [] []) ].

Fixpoint lookup {A} (k : string) (l : list (string * A)) : option A :=
  match l with
  | [] => None
  | (k', v) :: l' => if String.eqb k k' then Some v else lookup k l'
  end.

Definition ok (body : list string) : Response :=
  {| status_code := 200; content_length := None; body_chunks := body;
     body_error := None |}.

Definition base : string := DownloadXmlMultiprocess.S3_BASE_URL.

(** The remote: listings, a failing prefix, a malformed listing, two
    archives of which one breaks off. *)
Definition remote : list (string * Response) :=
  [ (base +:+ "data/", ok ["<listing data/>"]);
    (base +:+ "data/a/", ok ["<listing data/a/>"]);
    (base +:+ "data/b/",
     {| status_code := 500; content_length := None; body_chunks := [];
        body_error := None |});
    (base +:+ "bad/", ok ["<<< not xml"]);
    ("https://data.binance.vision/data/a/x-2024-04.zip",
     {| status_code := 200; content_length := Some "8";
        body_chunks := ["PK12"; "3456"]; body_error := None |});
    ("https://data.binance.vision/data/a/x-2024-05.zip",
     {| status_code := 200; content_length := Some "8";
        body_chunks := ["PK12"];
        body_error := Some (Exn OSError "Connection broken") |}) ].

Definition env : Env :=
  {| ET_fromstring := fun s =>
       match lookup s documents with
       | Some root => Ret root
       | None => Raise (Exn ParseError "syntax error: line 1, column 0")
       end;
     session_get := fun _ url =>
       match lookup url remote with
       | Some response => Ret response
       | None => Raise (Exn OSError "Max retries exceeded")
       end;
     bytes_decode := fun b => Ret b;
     py_int := fun s =>
       match NilZero.int_of_string s with
       | Some i => Ret (Z.of_int i)
       | None => Raise (Exn ValueError "invalid literal for int()")
       end;
     path_join := fun p s => p +:+ "/" +:+ PyStr.rstrip "/" s;
     path_parent := fun p => p +:+ "/..";
     path_name := fun p => p;
     urljoin := fun b k => b +:+ k;
     pool_get := fun _ => None;
     rglob_xml := fun _ paths => paths;
     stdin_line := "y" |}.

Definition args : DownloadXmlMultiprocess.Args :=
  {| DownloadXmlMultiprocess.workers := 4;
     DownloadXmlMultiprocess.max_depth := 3;
     DownloadXmlMultiprocess.retries := 3;
     DownloadXmlMultiprocess.save_dir := "mirror";
     DownloadXmlMultiprocess.start_prefix := "data/" |}.

End Fixture.

(** ** download_xml.py *)

Module DownloadXml.

Definition s3_base_url : string :=
  "https://s3-ap-northeast-1.amazonaws.com/data.binance.vision?delimiter=/&prefix=".

Definition origin_prefix : string := "data/".

(** [Path("./data")] *)
Definition save_dir : string := "data".

(** The script: the call, in a [try] whose handler only prints. [None] is
    "out of fuel". *)
Definition main (W : Env) (st : State) : option State :=
  match Utils.process_s3_directory_recursive 11 W s3_base_url
          (Some origin_prefix) save_dir 10 0 st with
  | None => None
  | Some (_, st') => Some st'
  end.

End DownloadXml.

(** ** count_xml_zip_files.py: the analysis of the results *)

(** [(xml_path, zip_count, zip_list, error)] *)
Definition CountResult : Type := string * Z * list string * string.

(** The dictionary [analysis]. *)
Record Analysis := {
  total_xml_files : Z;
  total_zip_files : Z;
  xml_with_zips : Z;
  xml_without_zips : Z;
  error_files : Z;
  distribution : gmap Z Z;
  top_xml_files : list (string * Z * list string);
  file_type_stats : gmap string Z
}.

(** [d[k] += 1] on a [defaultdict(int)] *)
Definition incr {K} `{Countable K} (k : K) (d : gmap K Z) : gmap K Z :=
  <[ k := default 0 (d !! k) + 1 ]> d.

(** The chain of [if "..." in zip_file] tests. *)
Definition file_type (zip_file : string) : string :=
  if PyStr.contains "trades" zip_file then "trades"
  else if PyStr.contains "klines" zip_file then "klines"
  else if PyStr.contains "bookDepth" zip_file then "bookDepth"
  else if PyStr.contains "aggTrades" zip_file then "aggTrades"
  else if PyStr.contains "bookTicker" zip_file then "bookTicker"
  else "other".

(** The variables the loop over [results] changes; [top_xml_files] is set
    after the loop. *)
Record Tally := {
  tally : Analysis;
  valid_results : list (string * Z * list string)
}.

Definition count_types (stats : gmap string Z) (zip_list : list string)
    : gmap string Z :=
  fold_left (fun stats zip_file => incr (file_type zip_file) stats)
    zip_list stats.

(** The body of the loop: one result. *)
Definition analyze_one (t : Tally) (result : CountResult) : Tally :=
  let '(xml_path, zip_count, zip_list, error) := result in
  let a := tally t in
  if PyStr.truthy error then
    {| tally :=
         {| total_xml_files := total_xml_files a;
            total_zip_files := total_zip_files a;
            xml_with_zips := xml_with_zips a;
            xml_without_zips := xml_without_zips a;
            error_files := error_files a + 1;
            distribution := distribution a;
            top_xml_files := top_xml_files a;
            file_type_stats := file_type_stats a |};
       valid_results := valid_results t |}
  else if 0 <? zip_count then
    {| tally :=
         {| total_xml_files := total_xml_files a;
            total_zip_files := total_zip_files a + zip_count;
            xml_with_zips := xml_with_zips a + 1;
            xml_without_zips := xml_without_zips a;
            error_files := error_files a;
            distribution := incr zip_count (distribution a);
            top_xml_files := top_xml_files a;
            file_type_stats := count_types (file_type_stats a) zip_list |};
       valid_results := valid_results t ++ [(xml_path, zip_count, zip_list)] |}
  else
    {| tally :=
         {| total_xml_files := total_xml_files a;
            total_zip_files := total_zip_files a + zip_count;
            xml_with_zips := xml_with_zips a;
            xml_without_zips := xml_without_zips a + 1;
            error_files := error_files a;
            distribution := distribution a;
            top_xml_files := top_xml_files a;
            file_type_stats := file_type_stats a |};
       valid_results := valid_results t ++ [(xml_path, zip_count, zip_list)] |}.

(** [l.sort(key=lambda x: x[1], reverse=True)]: the sort is stable, so an
    entry goes behind the entries that count as much or more. *)
Fixpoint insert_by_count (x : string * Z * list string)
    (sorted : list (string * Z * list string))
    : list (string * Z * list string) :=
  match sorted with
  | [] => [x]
  | y :: rest =>
      if snd (fst x) <=? snd (fst y) then y :: insert_by_count x rest
      else x :: y :: rest
  end.

Definition sort_by_count_desc (l : list (string * Z * list string))
    : list (string * Z * list string) :=
  fold_left (fun sorted x => insert_by_count x sorted) l [].

Definition analyze_zip_distribution (results : list CountResult) : Analysis :=
  let start :=
    {| tally :=
         {| total_xml_files := Z.of_nat (length results);
            total_zip_files := 0; xml_with_zips := 0; xml_without_zips := 0;
            error_files := 0; distribution := ∅; top_xml_files := [];
            file_type_stats := ∅ |};
       valid_results := [] |} in
  let t := fold_left analyze_one results start in
  let a := tally t in
  {| total_xml_files := total_xml_files a;
     total_zip_files := total_zip_files a;
     xml_with_zips := xml_with_zips a;
     xml_without_zips := xml_without_zips a;
     error_files := error_files a;
     distribution := distribution a;
     top_xml_files := take 10 (sort_by_count_desc (valid_results t));
     file_type_stats := file_type_stats a |}.

(** The sum of the values of a dictionary. *)
Definition dict_total {K} `{Countable K} (d : gmap K Z) : Z :=
  map_fold (fun _ v acc => v + acc) 0 d.

(** The results without error. *)
Definition without_error (results : list CountResult) : list CountResult :=
  List.filter (fun r : CountResult => negb (PyStr.truthy (snd r))) results.

Definition count_of (r : CountResult) : Z := snd (fst (fst r)).
Definition list_of (r : CountResult) : list string := snd (fst r).

(** The path of the mirror file of a prefix. *)
Definition mirror_path (W : Env) (save_dir p : string) : string :=
  path_join W (path_join W save_dir p) (Utils.xml_filename p).

(** [st'] has the files of [st] and maybe more or newer ones, and differs
    from it at most at the paths that satisfy [P]. *)
Definition files_grow (P : string → Prop) (st st' : State) : Prop :=
  (∀ q, q ∈ dom (files st) → q ∈ dom (files st')) ∧
  (∀ q, ¬ P q → files st' !! q = files st !! q).


(** The fixture with a body that is not UTF-8. *)
Definition env_not_utf8 : Env :=
  {| ET_fromstring := ET_fromstring Fixture.env;
     session_get := session_get Fixture.env;
     bytes_decode := fun _ =>
       Raise (Exn UnicodeDecodeError "'utf-8' codec can't decode byte 0xff");
     py_int := py_int Fixture.env;
     path_join := path_join Fixture.env;
     path_parent := path_parent Fixture.env;
     path_name := path_name Fixture.env;
     urljoin := urljoin Fixture.env;
     pool_get := pool_get Fixture.env;
     rglob_xml := rglob_xml Fixture.env;
     stdin_line := stdin_line Fixture.env |}.

(** What the recursive crawler may write: [errors.log] and mirror files. *)
Definition crawler_file (W : Env) (save_dir q : string) : Prop :=
  q = path_join W save_dir "errors.log" ∨ ∃ p, q = mirror_path W save_dir p.

(** What a state holds beside the file system. *)
Definition trace (st : State) : list (Z * string) * list Msg * Z :=
  (requests st, log st, level_shown st).

(** The fixture with a user who answers no. *)
Definition env_declined : Env :=
  {| ET_fromstring := ET_fromstring Fixture.env;
     session_get := session_get Fixture.env;
     bytes_decode := bytes_decode Fixture.env;
     py_int := py_int Fixture.env;
     path_join := path_join Fixture.env;
     path_parent := path_parent Fixture.env;
     path_name := path_name Fixture.env;
     urljoin := urljoin Fixture.env;
     pool_get := pool_get Fixture.env;
     rglob_xml := rglob_xml Fixture.env;
     stdin_line := "n" |}.

(** A mirror with the listing of "data/a/" in it. *)
Definition mirrored : State :=
  Fs.set_file "mirror/data/a/directory_data_a.xml" "<listing data/a/>"
    (snd (Fs.mkdir "mirror" empty_state)).

Definition zip_args (year month : option string) : DownloadZipData.Args :=
  {| DownloadZipData.year := year; DownloadZipData.month := month;
     DownloadZipData.data_dir := "mirror";
     DownloadZipData.download_dir := "downloads";
     DownloadZipData.workers := 4; DownloadZipData.retries := 3 |}.

(** The results that are counted as XML files with zip files. *)
Definition with_zips (results : list CountResult) : list CountResult :=
  List.filter (fun r : CountResult => 0 <? count_of r) (without_error results).

(** [valid_results] at the end of the loop. *)
Definition valid_of (results : list CountResult)
    : list (string * Z * list string) :=
  map fst (without_error results).

Definition sum_Z (l : list Z) : Z := fold_right Z.add 0 l.

(** The sum of [key * value] over a dictionary of numbers. *)
Definition dict_weighted (d : gmap Z Z) : Z :=
  map_fold (fun k v acc => k * v + acc) 0 d.

(** A result whose count is the length of its list, as
    [count_zip_files_in_xml] returns them. *)
Definition well_counted (r : CountResult) : Prop :=
  count_of r = Z.of_nat (length (list_of r)).

(** The names [file_type_stats] can hold. *)
Definition file_types : list string :=
  ["trades"; "klines"; "bookDepth"; "aggTrades"; "bookTicker"; "other"].

(** Descending by count. *)
Definition count_ge (x y : string * Z * list string) : Prop :=
  snd (fst y) <= snd (fst x).

(** Every entry counts at least as much as the entries behind it. *)
Fixpoint descending (l : list (string * Z * list string)) : Prop :=
  match l with
  | [] => True
  | x :: rest => Forall (count_ge x) rest ∧ descending rest
  end.

(** The entries with a given count, in the order of the list. *)
Definition with_count (c : Z) (l : list (string * Z * list string))
    : list (string * Z * list string) :=
  List.filter (fun x => snd (fst x) =? c) l.

(** Three results: an error, a listing with two archives, an empty one. *)
Definition sample_results : list CountResult :=
  [ ("a.xml", 0, [], "文件不存在");
    ("b.xml", 2, ["x-trades-1.zip"; "x-klines-1.zip"], "");
    ("c.xml", 0, [], "") ].

(** * Properties *)

#[local] Arguments String.append !_ _ / : simpl nomatch.

(** ** Strings *)

Section strings.

Lemma append_assoc (a b c : string) : (a +:+ b) +:+ c = a +:+ (b +:+ c).
Proof. induction a as [|x a IH]; simpl; [done | by rewrite IH]. Qed.


Lemma snoc_inj (a b : string) (c d : ascii) :
  a +:+ String c "" = b +:+ String d "" → a = b ∧ c = d.
Proof.
  revert b. induction a as [|x a IH]; intros [|y b]; simpl; intros H.
  - by inversion H.
  - inversion H as [[Hx Hb]]. by destruct b.
  - inversion H as [[Hx Hb]]. by destruct a.
  - inversion H as [[Hx Hb]]. destruct (IH _ Hb) as [-> ->]. done.
Qed.

Lemma startswith_spec (s p : string) :
  PyStr.startswith s p = true ↔ ∃ r, s = p +:+ r.
Proof.
  revert s. induction p as [|b p IH]; intros s; simpl.
  - split; [by exists s | done].
  - destruct s as [|a s]; simpl.
    + split; [done | by intros [r Hr]].
    + rewrite andb_true_iff, Ascii.eqb_eq, IH. split.
      * intros [-> [r ->]]. by exists r.
      * intros [r Hr]. inversion Hr. eauto.
Qed.

Lemma endswith_unfold (s suffix : string) :
  PyStr.endswith s suffix =
  String.eqb s suffix ||
  match s with
  | EmptyString => false
  | String _ s' => PyStr.endswith s' suffix
  end.
Proof. by destruct s. Qed.

Lemma endswith_spec (s suffix : string) :
  PyStr.endswith s suffix = true ↔ ∃ p, s = p +:+ suffix.
Proof.
  split.
  - induction s as [|a s IH]; rewrite endswith_unfold, orb_true_iff, String.eqb_eq.
    + intros [<- | ?]; [by exists "" | done].
    + intros [<- | H]; [by exists "" |].
      destruct (IH H) as [p ->]. by exists (String a p).
  - intros [p ->]. induction p as [|a p IH]; rewrite endswith_unfold.
    + by rewrite String.eqb_refl.
    + simpl. rewrite IH. apply orb_true_r.
Qed.

Lemma contains_unfold (pat s : string) :
  PyStr.contains pat s =
  PyStr.startswith s pat ||
  match s with
  | EmptyString => false
  | String _ s' => PyStr.contains pat s'
  end.
Proof. by destruct s. Qed.

Lemma contains_spec (pat s : string) :
  PyStr.contains pat s = true ↔ ∃ a b, s = a +:+ pat +:+ b.
Proof.
  split.
  - induction s as [|x s IH]; rewrite contains_unfold, orb_true_iff.
    + intros [H | ?]; [| done].
      apply startswith_spec in H as [r Hr]. by exists "", r.
    + intros [H | H].
      * apply startswith_spec in H as [r Hr]. by exists "", r.
      * destruct (IH H) as (a & b & ->). by exists (String x a), b.
  - intros (a & b & ->). induction a as [|x a IH]; rewrite contains_unfold.
    + simpl. replace (PyStr.startswith (pat +:+ b) pat) with true; [done |].
      symmetry. apply startswith_spec; eauto.
    + simpl. rewrite IH. apply orb_true_r.
Qed.

End strings.

Lemma last_char_neq (a b s t : string) (c d : ascii) :
  c ≠ d → a +:+ (s +:+ String c "") ≠ b +:+ (t +:+ String d "").
Proof.
  intros Hcd H. rewrite <- !append_assoc in H.
  apply snoc_inj in H as [_ ?]. done.
Qed.











Lemma wanted_decide (key : string) :
  PyStr.truthy key &&
  (PyStr.endswith key ".zip" && negb (PyStr.endswith key ".zip.CHECKSUM")) = true
  ↔ Wanted key.
Proof.
  unfold Wanted. rewrite !andb_true_iff, negb_true_iff, <- not_true_iff_false.
  rewrite !endswith_spec. split; [tauto |].
  intros [[p ->] H]. split; [| eauto]. by destruct p.
Qed.

(** C6. A key is kept by the loop over the [Contents] elements, in the
    downloader and in the counting script alike, when it ends with ".zip"
    and does not end with ".zip.CHECKSUM", and only then. So a key that ends
    with ".zip" is kept, the same key with ".CHECKSUM" appended is not, and
    a key that ends with ".json" is not. *)
Theorem key_wanted_iff (contents_elem key_elem : Element) (key : string)
    (zip_files : list string) :
  ET.find (ET.s3 "Key") contents_elem = Some key_elem →
  ET.text key_elem = Some key →
  (Wanted key →
     DownloadZipData.add_zip_file zip_files contents_elem = zip_files ++ [key] ∧
     CountXmlZipFiles.add_zip_file zip_files contents_elem = zip_files ++ [key]) ∧
  (¬ Wanted key →
     DownloadZipData.add_zip_file zip_files contents_elem = zip_files ∧
     CountXmlZipFiles.add_zip_file zip_files contents_elem = zip_files) ∧
  (∀ stem, key = stem +:+ ".zip" → Wanted key) ∧
  (∀ stem, key = (stem +:+ ".zip") +:+ ".CHECKSUM" → ¬ Wanted key) ∧
  (∀ stem, key = stem +:+ ".json" → ¬ Wanted key).
Proof.
  intros Hfind Htext.
  unfold DownloadZipData.add_zip_file, CountXmlZipFiles.add_zip_file.
  rewrite Hfind, Htext.
  assert (∀ stem, key = (stem +:+ ".zip") +:+ ".CHECKSUM" → ¬ Wanted key) as Hsum.
  { intros stem -> [[p Hp] _]. revert Hp.
    rewrite append_assoc. by apply (last_char_neq stem p ".zip.CHECKSU" ".zi"). }
  assert (∀ stem, key = stem +:+ ".json" → ¬ Wanted key) as Hjson.
  { intros stem -> [[p Hp] _]. revert Hp.
    by apply (last_char_neq stem p ".jso" ".zi"). }
  assert (∀ stem, key = stem +:+ ".zip" → Wanted key) as Hzip.
  { intros stem ->. split; [eauto |]. intros [p Hp]. revert Hp.
    by apply (last_char_neq stem p ".zi" ".zip.CHECKSU"). }
  destruct (PyStr.truthy key && _) eqn:Hw.
  - apply wanted_decide in Hw. by repeat apply conj.
  - assert (¬ Wanted key) as Hn by (intros H%wanted_decide; congruence).
    by repeat apply conj.
Qed.

Lemma key_wanted_iff_witness :
  DownloadZipData.add_zip_file [] (Fixture.contents_of "data/spot/x.zip") =
    ["data/spot/x.zip"] ∧
  CountXmlZipFiles.add_zip_file ["a.zip"] (Fixture.contents_of "data/spot/x.zip.CHECKSUM") =
    ["a.zip"].
Proof.
  split.
  - destruct (key_wanted_iff (Fixture.contents_of "data/spot/x.zip")
                (mkElement (ET.s3 "Key") (Some "data/spot/x.zip") [])
                "data/spot/x.zip" [] eq_refl eq_refl) as (H & _ & Hzip & _).
    apply H. by apply (Hzip "data/spot/x").
  - destruct (key_wanted_iff (Fixture.contents_of "data/spot/x.zip.CHECKSUM")
                (mkElement (ET.s3 "Key") (Some "data/spot/x.zip.CHECKSUM") [])
                "data/spot/x.zip.CHECKSUM" ["a.zip"] eq_refl eq_refl)
      as (_ & H & _ & Hsum & _).
    apply H. by apply (Hsum "data/spot/x").
Defined.

Lemma fold_add_if_dated (pat : string) (zip_files acc : list string) :
  fold_left (DownloadZipData.add_if_dated pat) zip_files acc =
  acc ++ List.filter (PyStr.contains pat) zip_files.
Proof.
  revert acc. induction zip_files as [|k l IH]; intros acc; simpl.
  - by rewrite app_nil_r.
  - rewrite IH. unfold DownloadZipData.add_if_dated.
    destruct (PyStr.contains pat k); [by rewrite <- app_assoc | done].
Qed.

Lemma filter_files_by_date_filter (zip_files : list string) (y m : string) :
  PyStr.truthy y = true → PyStr.truthy m = true →
  DownloadZipData.filter_files_by_date zip_files (Some y) (Some m) =
  List.filter (PyStr.contains (y +:+ "-" +:+ PyStr.zfill 2 m)) zip_files.
Proof.
  intros Hy Hm. unfold DownloadZipData.filter_files_by_date.
  rewrite Hy, Hm. simpl. by rewrite fold_add_if_dated.
Qed.

Lemma format_02d_month (n : Z) :
  1 <= n <= 12 →
  String.length (PyStr.format_02d n) = 2%nat ∧
  PyStr.zfill 2 (PyStr.format_02d n) = PyStr.format_02d n ∧
  PyStr.truthy (PyStr.format_02d n) = true ∧
  (n < 10 → PyStr.format_02d n = "0" +:+ PyStr.of_int n).
Proof.
  intros H.
  assert (n = 1 ∨ n = 2 ∨ n = 3 ∨ n = 4 ∨ n = 5 ∨ n = 6 ∨ n = 7 ∨ n = 8 ∨
          n = 9 ∨ n = 10 ∨ n = 11 ∨ n = 12) as Hn by lia.
  repeat (destruct Hn as [-> | Hn]); try subst n;
    (split; [reflexivity | split; [reflexivity | split; [reflexivity |]]]);
    first [ intros _; reflexivity | intros; lia ].
Qed.

(** C7. With a year and a month, both non-empty, [filter_files_by_date]
    keeps the keys that contain the year, a dash and the month filled with
    zeros to two characters, and only those; a month of one digit gets one
    zero in front. With only one of the two, [main] leaves at once with
    status 1 and an untouched state, so before any request. With both, and
    a month that [int] reads as a number from 1 to 12, [main] goes on with
    the year as given and the month written with two digits. *)
Theorem date_filter_and_usage_error (W : Env) (y m : string)
    (zip_files : list string) :
  PyStr.truthy y = true → PyStr.truthy m = true →
  (∀ key,
     key ∈ DownloadZipData.filter_files_by_date zip_files (Some y) (Some m) ↔
     key ∈ zip_files ∧ ∃ a b, key = a +:+ (y +:+ "-" +:+ PyStr.zfill 2 m) +:+ b) ∧
  (∀ d, m = String d "" → d ≠ "+"%char → d ≠ "-"%char →
     PyStr.zfill 2 m = String "0" (String d "")) ∧
  (∀ args st,
     DownloadZipData.year args = Some y →
     PyStr.truthy_opt (DownloadZipData.month args) = false →
     DownloadZipData.main W args st = (Ret usage_error, st)) ∧
  (∀ args st,
     PyStr.truthy_opt (DownloadZipData.year args) = false →
     DownloadZipData.month args = Some m →
     DownloadZipData.main W args st = (Ret usage_error, st)) ∧
  (∀ args year_int month_int,
     DownloadZipData.year args = Some y →
     DownloadZipData.month args = Some m →
     py_int W y = Ret year_int → py_int W m = Ret month_int →
     1 <= month_int <= 12 →
     DownloadZipData.validate W args =
       Ret (inr (Some y, Some (PyStr.format_02d month_int))) ∧
     PyStr.zfill 2 (PyStr.format_02d month_int) = PyStr.format_02d month_int ∧
     (month_int < 10 →
        PyStr.format_02d month_int = "0" +:+ PyStr.of_int month_int)).
Proof.
  intros Hy Hm. split; [| split; [| split; [| split]]].
  - intros key. rewrite filter_files_by_date_filter by done.
    rewrite list_elem_of_In, filter_In, <- list_elem_of_In, contains_spec. tauto.
  - intros d -> Hp Hmin. unfold PyStr.zfill. simpl.
    destruct (Ascii.eqb_spec d "+"); [done |].
    destruct (Ascii.eqb_spec d "-"); [done |]. done.
  - intros args st Hyear Hmonth.
    unfold DownloadZipData.main, DownloadZipData.validate, bind, lift.
    rewrite Hyear, Hmonth. simpl. rewrite Hy. done.
  - intros args st Hyear Hmonth.
    unfold DownloadZipData.main, DownloadZipData.validate, bind, lift.
    rewrite Hyear, Hmonth. simpl. rewrite Hm. done.
  - intros args year_int month_int Hyear Hmonth Hyi Hmi Hrange.
    destruct (format_02d_month month_int Hrange) as (_ & Hz & _ & Hlt).
    split; [| done].
    unfold DownloadZipData.validate. rewrite Hyear, Hmonth. simpl.
    rewrite Hy, Hm, Hyi, Hmi. simpl.
    replace (1 <=? month_int) with true by (symmetry; apply Z.leb_le; lia).
    replace (month_int <=? 12) with true by (symmetry; apply Z.leb_le; lia).
    done.
Qed.

Lemma date_filter_and_usage_error_witness :
  "data/a/x-2024-04.zip" ∈
    DownloadZipData.filter_files_by_date
      ["data/a/x-2024-04.zip"; "data/a/x-2024-05.zip"] (Some "2024") (Some "4") ∧
  "data/a/x-2024-05.zip" ∉
    DownloadZipData.filter_files_by_date
      ["data/a/x-2024-04.zip"; "data/a/x-2024-05.zip"] (Some "2024") (Some "4").
Proof.
  destruct (date_filter_and_usage_error Fixture.env "2024" "4"
              ["data/a/x-2024-04.zip"; "data/a/x-2024-05.zip"]
              eq_refl eq_refl) as (H & _).
  split.
  - apply H. split; [left |]. by exists "data/a/x-", ".zip".
  - intros (_ & a & b & Hab)%H.
    assert (PyStr.contains "2024-04" "data/a/x-2024-05.zip" = true) as Hc
      by (apply contains_spec; eauto).
    discriminate Hc.
Defined.

Import DownloadXmlMultiprocess.

(** ** The workers of the level-synchronized crawler *)

(** Unfold the monad. *)
Ltac run :=
  unfold bind, lift, ret, raise, try_except, http_get, announce_level,
    logger_info, Fs.mkdir, Fs.open_w, Fs.write, Fs.exists_, Fs.isfile,
    Fs.open_a, Fs.set_file in *; simpl in *.

Lemma worker_effect (W : Env) (task : Task) (st : State) :
  ∃ st',
    download_xml_worker W task st = (Ret (worker_outcome W task), st') ∧
    level_shown st' = level_shown st ∧
    log st' = log st ∧
    requests st' =
      requests st ++ option_list (level_request (level_shown st) (fst (fst task))).
Proof.
  destruct task as [[[p|] save_dir] retries]; unfold worker_outcome.
  - unfold download_xml_worker. run.
    destruct (session_get W _ _) as [response|e]; simpl; [| eauto 10].
    destruct (raise_for_status response); simpl; [| eauto 10].
    destruct (response_content response) as [xml_content|e]; simpl; [| eauto 10].
    destruct (bytes_decode W xml_content) as [xml_string|e]; simpl; [| eauto 10].
    destruct (get_common_prefixes W xml_string); simpl; eauto 10.
  - unfold download_xml_worker. run. eexists. by rewrite app_nil_r.
Qed.

Lemma submit_all_effect (W : Env) (download_tasks : list Task) (st : State) :
  ∃ st',
    submit_all W download_tasks st =
      (Ret (map (λ task, (worker_outcome W task, task)) download_tasks), st') ∧
    level_shown st' = level_shown st ∧
    log st' = log st ∧
    requests st' =
      requests st ++
      omap (λ task : Task, level_request (level_shown st) (fst (fst task)))
        download_tasks.
Proof.
  revert st. induction download_tasks as [|task rest IH]; intros st; simpl.
  - eexists. unfold ret. by rewrite app_nil_r.
  - destruct (worker_effect W task st) as (st1 & Hw & Hl & Hlog & Hreq).
    destruct (IH st1) as (st2 & Hs & Hl2 & Hlog2 & Hreq2).
    exists st2. unfold bind. rewrite Hw, Hs. unfold ret.
    split; [done |]. split; [congruence |]. split; [congruence |].
    rewrite Hreq2, Hreq, Hl, <- app_assoc. f_equal.
    by destruct (level_request _ _).
Qed.

Lemma collect_effect (W : Env) (lv : Level) (task : Task) (st : State) :
  collect W (Some logger_info) lv (worker_outcome W task, task) st =
    (Ret (gathered W lv [task]),
     {| files := files st; dirs := dirs st; level_shown := level_shown st;
        requests := requests st; log := log st ++ [level_record W task] |}).
Proof.
  unfold collect, gathered, children_received, level_record. run.
  destruct (result_get W _ task) as [[[[[] error_msg] xml_path] cs]|e]; simpl;
    rewrite ?app_nil_r, ?Z.add_0_r; done.
Qed.

Lemma gathered_cons (W : Env) (lv : Level) (task : Task) (rest : list Task) :
  gathered W (gathered W lv [task]) rest = gathered W lv (task :: rest).
Proof.
  unfold gathered. simpl. rewrite !app_nil_r.
  destruct (level_record W task); simpl; rewrite <- ?app_assoc; simpl;
    f_equal; lia.
Qed.

Lemma collect_all_effect (W : Env) (lv : Level) (tasks : list Task) (st : State) :
  collect_all W (Some logger_info) lv
    (map (λ task, (worker_outcome W task, task)) tasks) st =
    (Ret (gathered W lv tasks),
     {| files := files st; dirs := dirs st; level_shown := level_shown st;
        requests := requests st; log := log st ++ map (level_record W) tasks |}).
Proof.
  revert lv st. induction tasks as [|task rest IH]; intros lv st.
  - unfold gathered. simpl. unfold ret. rewrite !app_nil_r, !Z.add_0_r.
    by destruct lv, st.
  - cbn [map collect_all]. unfold bind at 1.
    rewrite collect_effect, IH, gathered_cons. simpl.
    by rewrite <- app_assoc.
Qed.

Lemma count_records (W : Env) (tasks : list Task) :
  Z.of_nat (length (List.filter (λ t, negb (is_failure_record (level_record W t))) tasks)) +
  Z.of_nat (length (List.filter (λ t, is_failure_record (level_record W t)) tasks)) =
  Z.of_nat (length tasks).
Proof.
  induction tasks as [|t l IH]; simpl; [done |].
  destruct (is_failure_record (level_record W t)); simpl; lia.
Qed.

Lemma filter_map_length {A B} (f : A → B) (P : B → bool) (l : list A) :
  length (List.filter P (map f l)) = length (List.filter (λ a, P (f a)) l).
Proof.
  induction l as [|a l IH]; simpl; [done |].
  destruct (P (f a)); simpl; by rewrite IH.
Qed.

(** One level: what it returns, what it logs, what it requests. *)
Lemma process_level_effect (W : Env) (prefixes : list (option string))
    (save_dir : string) (workers retries level : Z) (st : State) :
  let tasks := map (task_of save_dir retries) prefixes in
  ∃ st' successful failed,
    process_level_with_multiprocessing W prefixes save_dir workers retries
      level (Some logger_info) st =
      (Ret (flat_map (children_received W) tasks, successful, failed), st') ∧
    successful + failed = Z.of_nat (length prefixes) ∧
    failed =
      Z.of_nat (length (List.filter is_failure_record (map (level_record W) tasks))) ∧
    log st' = log st ++ map (level_record W) tasks ∧
    requests st' = requests st ++ omap (level_request level) prefixes.
Proof.
  intros tasks.
  destruct (decide (prefixes = [])) as [-> | Hne].
  - exists st, 0, 0. simpl. unfold ret. by rewrite !app_nil_r.
  - assert (process_level_with_multiprocessing W prefixes save_dir workers
              retries level (Some logger_info) st =
            (announce_level level ;;;
             results <- submit_all W tasks ;;
             lv <- collect_all W (Some logger_info)
                     {| next_level_prefixes := []; successful_downloads := 0;
                        failed_downloads := 0; failed_tasks := [] |} results ;;
             ret (next_level_prefixes lv, successful_downloads lv,
                  failed_downloads lv)) st) as -> by (by destruct prefixes).
    unfold bind at 1. unfold announce_level at 1.
    set (st0 := {| files := files st; dirs := dirs st; level_shown := level;
                   requests := requests st; log := log st |}).
    destruct (submit_all_effect W tasks st0) as (st1 & Hs & Hl & Hlog & Hreq).
    unfold bind at 1. rewrite Hs.
    unfold bind at 1. rewrite collect_all_effect. unfold ret.
    eexists _, _, _. split; [reflexivity |]. simpl.
    split; [| split; [| split]].
    + pose proof (count_records W tasks) as Hc. unfold tasks in *.
      rewrite length_map in Hc. lia.
    + by rewrite filter_map_length.
    + by rewrite Hlog.
    + rewrite Hreq. simpl. f_equal. unfold tasks.
      clear. induction prefixes as [|p l IH]; csimpl; [done |].
      by rewrite IH.
Qed.

Lemma level_loop_effect (W : Env) (args : Args) (levels : list Z) (r : Run)
    (st : State) :
  ∃ r' st' Fs,
    level_loop W args levels r st = (Ret r', st') ∧
    frontiers r' = frontiers r ++ Fs ∧
    (length Fs ≤ length levels)%nat ∧
    chained W (save_dir args) (retries args) (current_prefixes r) Fs ∧
    (length Fs = length levels ∨
     ended W (save_dir args) (retries args) (current_prefixes r) Fs) ∧
    log st' = log st ++ concat (map (records_of W (save_dir args) (retries args)) Fs) ∧
    requests st' = requests st ++ concat (zip_with requests_of levels Fs) ∧
    total_failed r' =
      total_failed r +
      Z.of_nat (length (List.filter is_failure_record
        (concat (map (records_of W (save_dir args) (retries args)) Fs)))) ∧
    total_successful r' + total_failed r' =
      total_successful r + total_failed r + Z.of_nat (length (concat Fs)).
Proof.
  revert r st. induction levels as [|level levels IH]; intros r st.
  - exists r, st, []. simpl. unfold ret. rewrite !app_nil_r.
    repeat split; try done; try lia; try (by left).
  - cbn [level_loop]. destruct (current_prefixes r) as [|p cur] eqn:Hcur.
    { exists r, st, []. simpl. unfold ret. rewrite !app_nil_r.
      repeat split; try done; try lia; try (by right). }
    set (F := list_set (p :: cur)).
    destruct (process_level_effect W F (save_dir args) (workers args)
                (retries args) (level + 1) st)
      as (st1 & successful & failed & Hp & Hsum & Hfailed & Hlog & Hreq).
    unfold bind at 1. rewrite Hp.
    remember (flat_map (children_received W)
                (map (task_of (save_dir args) (retries args)) F)) as next
      eqn:Hnext.
    set (r1 := {| current_prefixes := next;
                  total_successful := total_successful r + successful;
                  total_failed := total_failed r + failed;
                  frontiers := frontiers r ++ [F] |}).
    fold (records_of W (save_dir args) (retries args) F) in *.
    assert (total_successful r1 + total_failed r1 =
            total_successful r + total_failed r + Z.of_nat (length F)) as Hr1
      by (simpl; lia).
    destruct next as [|q next'].
    + exists r1, st1, [F]. unfold ret. simpl. rewrite !app_nil_r.
      unfold requests_of. rewrite zip_with_nil_r. simpl. rewrite !app_nil_r.
      repeat split; try done; try lia; try (right; by rewrite <- Hnext).
    + destruct (IH r1 st1)
        as (r' & st' & Fs & Hloop & Hfr & Hlen & Hch & Hend & Hlog' & Hreq' &
            Hf' & Hs').
      exists r', st', (F :: Fs). rewrite Hloop.
      simpl in Hfr, Hch, Hend, Hf', Hs'. simpl.
      repeat split; try done.
      * by rewrite Hfr, <- app_assoc.
      * lia.
      * by rewrite <- Hnext.
      * rewrite <- Hnext. destruct Hend as [Hend | Hend]; [left; lia | by right].
      * by rewrite Hlog', Hlog, <- app_assoc.
      * by rewrite Hreq', Hreq, <- app_assoc.
      * rewrite Hf', List.filter_app, length_app. lia.
      * rewrite Hs', length_app. lia.
Qed.

(** ** The recursive crawler *)

Lemma set_file_twice (path a b : string) (st : State) :
  Fs.set_file path b (Fs.set_file path a st) = Fs.set_file path b st.
Proof. unfold Fs.set_file. simpl. by rewrite insert_insert_eq. Qed.

Lemma save_error_url_eq (write_text loacl : string) (st : State) :
  Utils.save_error_url write_text loacl st =
  (Ret tt,
   Fs.set_file loacl
     (default "" (files st !! loacl) +:+ (write_text +:+ newline)) st).
Proof.
  unfold Utils.save_error_url, bind, Fs.isfile, Fs.open_a, Fs.open_w, Fs.write.
  case_bool_decide as Hin; simpl.
  - rewrite lookup_insert_eq. simpl. by rewrite set_file_twice.
  - rewrite lookup_insert_eq. simpl. rewrite set_file_twice.
    apply not_elem_of_dom in Hin. by rewrite Hin.
Qed.

Lemma send_xml_request_eq (W : Env) (url : string) (st : State) :
  Utils.send_xml_request_with_retry W url 3 (1 # 2) st =
  (fetched W default_session url, requested st (level_shown st, url)).
Proof.
  unfold Utils.send_xml_request_with_retry, fetched, bind, lift, http_get,
    requested, default_session.
  destruct (session_get W _ url) as [response|e]; [| done].
  destruct (raise_for_status response); [| done]. done.
Qed.

Lemma fetch_directory_eq (W : Env) (s3_base_url p local_dir : string)
    (st : State) :
  Utils.fetch_directory W s3_base_url (Some p) local_dir st =
  let url := s3_base_url +:+ p in
  let st1 := requested st (level_shown st, url) in
  match fetched W default_session url with
  | Raise e => (Raise e, st1)
  | Ret xml_content =>
      (Utils.get_common_prefixes W xml_content,
       Fs.set_file (path_join W local_dir (Utils.xml_filename p)) xml_content st1)
  end.
Proof.
  unfold Utils.fetch_directory, bind, lift. simpl.
  rewrite send_xml_request_eq.
  destruct (fetched W default_session _) as [xml_content|e]; [| done].
  unfold Utils.save_xml_file, try_except, bind, Fs.open_w, Fs.write, ret.
  simpl. rewrite lookup_insert_eq. simpl. by rewrite set_file_twice.
Qed.

Section recursive.

Context (W : Env) (s3_base_url save_dir : string) (max_depth : Z).

(** An induction scheme: a relation between the states before and after
    that holds for the steps of a call holds for the call. *)
Lemma process_rel (R : Z → State → State → Prop) :
  (∀ d st, R d st st) →
  (∀ d st1 st2 st3, R d st1 st2 → R d st2 st3 → R d st1 st3) →
  (∀ d st st', R (d + 1) st st' → R d st st') →
  (∀ d st, d < max_depth → R d st (snd (announce_level d st))) →
  (∀ d st local_dir, d < max_depth → R d st (snd (Fs.mkdir local_dir st))) →
  (∀ d p local_dir st r st1, d < max_depth → level_shown st = d →
     Utils.fetch_directory W s3_base_url (Some p) local_dir st = (r, st1) →
     R d st st1) →
  (∀ d text st, d < max_depth →
     R d st (snd (Utils.save_error_url text
                    (path_join W save_dir "errors.log") st))) →
  ∀ fuel prefix d st res st',
    Utils.process_s3_directory_recursive fuel W s3_base_url prefix save_dir
      max_depth d st = Some (res, st') →
    R d st st'.
Proof.
  intros Hrefl Htrans Hmono Hshow Hdir Hfetch Hlog.
  induction fuel as [|fuel IH]; intros prefix d st res st' Hrun; [done |].
  cbn [Utils.process_s3_directory_recursive] in Hrun.
  destruct (Z.geb_spec d max_depth) as [Hge | Hlt].
  { injection Hrun as <- <-. apply Hrefl. }
  destruct prefix as [p|]; simpl in Hrun.
  2: { injection Hrun as <- <-. apply (Hshow d st Hlt). }
  match type of Hrun with
  | context [Utils.fetch_directory _ _ _ ?ld ?s] =>
      set (st0 := s) in *; set (local_dir := ld) in *
  end.
  assert (R d st st0) as H0.
  { eapply Htrans; [apply (Hshow d st Hlt) |].
    change st0 with (snd (Fs.mkdir local_dir (snd (announce_level d st)))).
    apply (Hdir d _ local_dir Hlt). }
  destruct (Utils.fetch_directory W s3_base_url (Some p) local_dir st0)
    as [[cs|e] st1] eqn:Hf; cbv beta iota in Hrun.
  - assert (R d st0 st1) as H1 by (by eapply Hfetch).
    assert (∀ cs st1 r st2,
              Utils.for_each_child
                (fun c =>
                   Utils.process_s3_directory_recursive fuel W s3_base_url
                     c save_dir max_depth (d + 1)) cs st1 = Some (r, st2) →
              R d st1 st2) as Hloop.
    { clear -IH Hrefl Htrans Hmono.
      induction cs as [|c cs IHcs]; intros st1 r st2 Hrun; simpl in Hrun.
      - injection Hrun as <- <-. apply Hrefl.
      - destruct (Utils.process_s3_directory_recursive fuel W s3_base_url
                    c save_dir max_depth (d + 1) st1)
          as [[[[]|e] sta]|] eqn:Hc;
          [| | done].
        + eapply Htrans; [apply Hmono; eapply IH; eauto | eauto].
        + injection Hrun as <- <-. apply Hmono. eapply IH; eauto. }
    destruct (Utils.for_each_child _ cs st1) as [[[[]|e] st2]|] eqn:Hl;
      [| | done].
    + injection Hrun as <- <-. eauto.
    + injection Hrun as Hrun. apply (f_equal snd) in Hrun. simpl in Hrun.
      subst st'. eapply Htrans; [| apply Hlog; done]. eauto.
  - injection Hrun as Hrun. apply (f_equal snd) in Hrun. simpl in Hrun.
    subst st'. eapply Htrans; [| apply Hlog; done]. eapply Htrans; [done |].
    by eapply Hfetch.
Qed.

End recursive.

Section recursive_facts.

Context (W : Env) (s3_base_url save_dir : string) (max_depth : Z).

(** Every request of a call at depth [d] is made at a depth from [d] up
    to, and not including, [max_depth]. *)
Lemma process_requests (fuel : nat) (prefix : option string) (d : Z)
    (st : State) (res : Exc unit) (st' : State) :
  Utils.process_s3_directory_recursive fuel W s3_base_url prefix save_dir
    max_depth d st = Some (res, st') →
  ∃ new, requests st' = requests st ++ new ∧
         Forall (λ rq : Z * string, d <= rq.1 < max_depth) new.
Proof.
  apply (process_rel W s3_base_url save_dir max_depth
    (λ d st st', ∃ new, requests st' = requests st ++ new ∧
                        Forall (λ rq : Z * string, d <= rq.1 < max_depth) new)).
  - intros d0 st0. exists []. by rewrite app_nil_r.
  - intros d0 st1 st2 st3 (n1 & H1 & F1) (n2 & H2 & F2).
    exists (n1 ++ n2). rewrite H2, H1, <- app_assoc. split; [done |].
    by apply Forall_app.
  - intros d0 st0 st1 (n & H & F). exists n. split; [done |].
    eapply Forall_impl; [done |]. simpl. intros; lia.
  - intros d0 st0 _. exists []. simpl. by rewrite app_nil_r.
  - intros d0 st0 ld _. exists []. simpl. by rewrite app_nil_r.
  - intros d0 p ld st0 r st1 Hlt Hshown Hf.
    rewrite fetch_directory_eq in Hf. simpl in Hf.
    exists [(d0, s3_base_url +:+ p)].
    split; [| by repeat constructor; simpl; lia].
    destruct (fetched W default_session _); injection Hf as <- <-;
      simpl; by rewrite Hshown.
  - intros d0 text st0 _. rewrite save_error_url_eq. exists [].
    simpl. by rewrite app_nil_r.
Qed.


Lemma for_each_child_total
    (visit : option string → State → option (Exc unit * State)) :
  (∀ c st, is_Some (visit c st)) →
  ∀ cs st, is_Some (Utils.for_each_child visit cs st).
Proof.
  intros Hv. induction cs as [|c cs IH]; intros st; simpl; [done |].
  destruct (Hv c st) as [[[[]|e] st1] ->]; [apply IH | done].
Qed.

(** With fuel for the levels that are left, a call returns. *)
Lemma process_total (fuel : nat) (prefix : option string) (d : Z)
    (st : State) :
  (Z.to_nat (max_depth - d) < fuel)%nat →
  is_Some (Utils.process_s3_directory_recursive fuel W s3_base_url prefix
             save_dir max_depth d st).
Proof.
  revert prefix d st. induction fuel as [|fuel IH]; intros prefix d st Hfuel;
    [lia |].
  cbn [Utils.process_s3_directory_recursive].
  destruct (Z.geb_spec d max_depth) as [Hge | Hlt]; [done |].
  destruct prefix as [p|]; simpl; [| done].
  destruct (Utils.fetch_directory _ _ _ _ _) as [[cs|e] st1]; [| done].
  destruct (for_each_child_total
              (λ c, Utils.process_s3_directory_recursive fuel W s3_base_url
                      c save_dir max_depth (d + 1))
              (λ c st0, IH c (d + 1) st0 ltac:(lia)) cs st1)
    as [[[[]|e] st2] ->]; [done |].
  by rewrite save_error_url_eq.
Qed.

(** A call for a prefix that is a string returns without raising. *)
Lemma process_str_returns (fuel : nat) (p : string) (d : Z) (st : State)
    (res : Exc unit) (st' : State) :
  Utils.process_s3_directory_recursive fuel W s3_base_url (Some p) save_dir
    max_depth d st = Some (res, st') →
  res = Ret tt.
Proof.
  destruct fuel as [|fuel]; [done |].
  cbn [Utils.process_s3_directory_recursive].
  destruct (Z.geb_spec d max_depth) as [Hge | Hlt]; [by intros [= <- <-] |].
  simpl.
  destruct (Utils.fetch_directory _ _ _ _ _) as [[cs|e] st1].
  - destruct (Utils.for_each_child _ cs st1) as [[[[]|e] st2]|]; [| | done].
    + by intros [= <- <-].
    + rewrite save_error_url_eq. by intros [= <- <-].
  - rewrite save_error_url_eq. by intros [= <- <-].
Qed.

(** At the depth bound a call does nothing. *)
Lemma process_at_bound (fuel : nat) (prefix : option string) (d : Z)
    (st : State) :
  max_depth <= d →
  Utils.process_s3_directory_recursive (S fuel) W s3_base_url prefix
    save_dir max_depth d st = Some (Ret tt, st).
Proof.
  intros Hge. cbn [Utils.process_s3_directory_recursive].
  destruct (Z.geb_spec d max_depth) as [_ | Hlt]; [done | lia].
Qed.


End recursive_facts.

(** ** The level-synchronized crawler as a whole *)

Lemma list_set_NoDup (l : list (option string)) : NoDup (list_set l).
Proof. unfold list_set. apply NoDup_elements. Qed.

Lemma elem_of_list_set (l : list (option string)) (p : option string) :
  p ∈ list_set l ↔ p ∈ l.
Proof. unfold list_set. by rewrite elem_of_elements, elem_of_list_to_set. Qed.

Lemma list_set_singleton (p : option string) : list_set [p] = [p].
Proof.
  apply Permutation_singleton_r. unfold list_set.
  apply elements_list_to_set. apply NoDup_singleton.
Qed.

Lemma chained_lookup (W : Env) (save_dir : string) (retries : Z)
    (cur : list (option string)) (Fs : list (list (option string)))
    (d : nat) (F F' : list (option string)) :
  chained W save_dir retries cur Fs →
  Fs !! d = Some F → Fs !! S d = Some F' →
  F' = list_set (flat_map (children_received W)
                   (map (task_of save_dir retries) F)).
Proof.
  revert cur d. induction Fs as [|F0 Fs IH]; intros cur d Hch HF HF'; [done |].
  destruct Hch as (_ & _ & Hch). destruct d as [|d]; simpl in HF, HF'.
  - injection HF as ->. destruct Fs as [|F1 Fs]; [done |].
    injection HF' as ->. by destruct Hch as (_ & -> & _).
  - by eapply IH.
Qed.


Lemma elem_of_py_range (n level : Z) : level ∈ py_range n → 0 <= level < n.
Proof.
  unfold py_range. rewrite list_elem_of_In, in_map_iff.
  intros (k & <- & Hk%in_seq). lia.
Qed.

Lemma requests_of_levels (levels : list Z) (Fs : list (list (option string)))
    (rq : Z * string) :
  rq ∈ concat (zip_with requests_of levels Fs) →
  ∃ level, level ∈ levels ∧ rq.1 = level + 1.
Proof.
  revert Fs. induction levels as [|level levels IH]; intros [|F Fs]; simpl;
    try by intros ?%elem_of_nil.
  rewrite elem_of_app. intros [Hin | Hin].
  - exists level. split; [left |]. unfold requests_of in Hin.
    apply list_elem_of_omap in Hin as (p & _ & Hp).
    destruct p; simpl in Hp; by simplify_eq.
  - destruct (IH Fs Hin) as (l & Hl & Heq). exists l. split; [by right | done].
Qed.

(** A run of [main]: it returns; what it dispatched, logged and requested. *)
Lemma main_effect (W : Env) (args : Args) (st : State) :
  ∃ r st',
    main W args st = (Ret r, st') ∧
    (length (frontiers r) ≤ Z.to_nat (max_depth args))%nat ∧
    chained W (save_dir args) (retries args) [Some (start_prefix args)]
      (frontiers r) ∧
    (length (frontiers r) = Z.to_nat (max_depth args) ∨
     ended W (save_dir args) (retries args) [Some (start_prefix args)]
       (frontiers r)) ∧
    log st' =
      log st ++
      concat (map (records_of W (save_dir args) (retries args)) (frontiers r)) ∧
    requests st' =
      requests st ++
      concat (zip_with requests_of (py_range (max_depth args)) (frontiers r)) ∧
    total_failed r =
      Z.of_nat (length (List.filter is_failure_record
        (concat (map (records_of W (save_dir args) (retries args))
                   (frontiers r))))) ∧
    total_successful r + total_failed r =
      Z.of_nat (length (concat (frontiers r))).
Proof.
  unfold main, bind, Fs.mkdir.
  match goal with
  | |- context [level_loop W args ?ls ?r0 ?s0] =>
      destruct (level_loop_effect W args ls r0 s0)
        as (r & st' & Fs & Hrun & Hfr & Hlen & Hch & Hend & Hlog & Hreq & Hf & Hs)
  end.
  exists r, st'. rewrite Hrun. simpl in *. subst Fs.
  unfold py_range in Hlen, Hend. rewrite length_map, length_seq in Hlen, Hend.
  repeat split; try done.
Qed.

Lemma elem_of_children (W : Env) (save_dir : string) (retries : Z)
    (F : list (option string)) (p : option string) :
  p ∈ flat_map (children_received W) (map (task_of save_dir retries) F) ↔
  ∃ q error_msg xml_path child_prefixes,
    q ∈ F ∧
    result_get W (worker_outcome W (q, save_dir, retries))
      (q, save_dir, retries) =
      Ret (true, error_msg, xml_path, child_prefixes) ∧
    p ∈ child_prefixes.
Proof.
  rewrite list_elem_of_In, in_flat_map. split.
  - intros (task & Htask & Hp). apply in_map_iff in Htask as (q & <- & Hq).
    unfold children_received, task_of in Hp.
    destruct (result_get W _ _) as [[[[[] msg] path] cs]|e] eqn:Hget;
      try done.
    exists q, msg, path, cs. by rewrite !list_elem_of_In.
  - intros (q & msg & path & cs & Hq & Hget & Hp).
    exists (task_of save_dir retries q). split.
    + apply in_map. by apply list_elem_of_In.
    + unfold children_received, task_of. rewrite Hget.
      by apply list_elem_of_In.
Qed.

(** C1. The frontier dispatched at depth d+1 is the set of the child
    prefixes that the coordinator received from the workers of depth d that
    reported success: it has no duplicates, every such child is in it, and
    nothing else is. The first frontier is the start prefix; the crawl goes
    on until the depth bound or until a level yields no child. A worker that
    reports failure yields no child. *)
Theorem next_frontier_is_union_of_children (W : Env) (args : Args)
    (st : State) :
  ∃ r st',
    main W args st = (Ret r, st') ∧
    (∀ F0, frontiers r !! 0%nat = Some F0 → F0 = [Some (start_prefix args)]) ∧
    (∀ d F F',
       frontiers r !! d = Some F → frontiers r !! S d = Some F' →
       NoDup F' ∧
       ∀ p, p ∈ F' ↔
         ∃ q error_msg xml_path child_prefixes,
           q ∈ F ∧
           result_get W (worker_outcome W (q, save_dir args, retries args))
             (q, save_dir args, retries args) =
             Ret (true, error_msg, xml_path, child_prefixes) ∧
           p ∈ child_prefixes) ∧
    (∀ task st0,
       fst (download_xml_worker W task st0) = Ret (worker_outcome W task)) ∧
    (∀ task, fst (fst (fst (worker_outcome W task))) = false →
             children_received W task = []) ∧
    (length (frontiers r) = Z.to_nat (max_depth args) ∨
     ended W (save_dir args) (retries args) [Some (start_prefix args)]
       (frontiers r)).
Proof.
  destruct (main_effect W args st)
    as (r & st' & Hrun & Hlen & Hch & Hend & _).
  exists r, st'. split; [done |]. split; [| split; [| split; [| split]]].
  - intros F0 HF0. destruct (frontiers r) as [|F Fs]; [done |].
    injection HF0 as <-. destruct Hch as (_ & -> & _).
    apply list_set_singleton.
  - intros d F F' HF HF'.
    rewrite (chained_lookup _ _ _ _ _ _ _ _ Hch HF HF').
    split; [apply list_set_NoDup |].
    intros p. by rewrite elem_of_list_set, elem_of_children.
  - intros task st0. by destruct (worker_effect W task st0) as (? & -> & _).
  - intros task Hfail. unfold children_received, result_get.
    destruct (pool_get W _); [done |].
    by destruct (worker_outcome W task) as [[[[] ?] ?] ?].
  - done.
Qed.

(** C2. No prefix at a depth of [max_depth] or more is fetched. The
    recursive crawler returns, and each of its requests is made at a depth
    below the bound; called at the bound it does nothing. The
    level-synchronized crawler dispatches the frontiers of the depths below
    the bound only, and its requests are those of the prefixes of these
    frontiers, made under the level labels 1 to [max_depth] (the label of
    depth d is d+1). *)
Theorem no_fetch_at_max_depth (W : Env) (s3_base_url save_dir start : string)
    (max_depth : Z) (args : Args) (st : State) :
  (∃ res st',
     Utils.crawl W s3_base_url start save_dir max_depth st = Some (res, st') ∧
     ∃ new, requests st' = requests st ++ new ∧
            Forall (λ rq : Z * string, 0 <= rq.1 < max_depth) new) ∧
  (∀ fuel prefix d st0 res st',
     Utils.process_s3_directory_recursive fuel W s3_base_url prefix save_dir
       max_depth d st0 = Some (res, st') →
     ∃ new, requests st' = requests st0 ++ new ∧
            Forall (λ rq : Z * string, d <= rq.1 < max_depth) new) ∧
  (∀ fuel prefix d st0,
     max_depth <= d →
     Utils.process_s3_directory_recursive (S fuel) W s3_base_url prefix
       save_dir max_depth d st0 = Some (Ret tt, st0)) ∧
  (∃ r st',
     main W args st = (Ret r, st') ∧
     (∀ d F, frontiers r !! d = Some F →
             Z.of_nat d < DownloadXmlMultiprocess.max_depth args) ∧
     requests st' =
       requests st ++
       concat (zip_with requests_of
                 (py_range (DownloadXmlMultiprocess.max_depth args))
                 (frontiers r)) ∧
     ∃ new, requests st' = requests st ++ new ∧
            Forall (λ rq : Z * string,
                      0 <= rq.1 - 1 < DownloadXmlMultiprocess.max_depth args)
              new).
Proof.
  split; [| split; [| split]].
  - unfold Utils.crawl.
    destruct (process_total W s3_base_url save_dir max_depth
                (S (Z.to_nat max_depth)) (Some start) 0 st ltac:(lia))
      as [[res st'] Hrun].
    exists res, st'. split; [done |]. by eapply process_requests.
  - intros fuel prefix d st0 res st'. apply process_requests.
  - intros fuel prefix d st0. apply process_at_bound.
  - destruct (main_effect W args st)
      as (r & st' & Hrun & Hlen & _ & _ & _ & Hreq & _).
    exists r, st'. split; [done |]. split; [| split; [done |]].
    + intros d F HF. apply lookup_lt_Some in HF. lia.
    + eexists. split; [done |]. apply Forall_forall. intros rq Hin.
      apply requests_of_levels in Hin as (level & Hl%elem_of_py_range & ->).
      lia.
Qed.

Lemma next_frontier_is_union_of_children_witness :
  ∃ r st' F',
    main Fixture.env Fixture.args empty_state = (Ret r, st') ∧
    frontiers r !! 0%nat = Some [Some "data/"] ∧
    frontiers r !! 1%nat = Some F' ∧
    NoDup F' ∧ length F' = 3%nat.
Proof.
  destruct (next_frontier_is_union_of_children Fixture.env Fixture.args
              empty_state) as (r & st' & Hrun & _ & Hnext & _).
  exists r, st'.
  pose proof Hrun as Hc. vm_compute in Hc. injection Hc as Hr _. subst r.
  eexists. split; [exact Hrun |]. split; [reflexivity |].
  split; [reflexivity |].
  split; [| reflexivity].
  by destruct (Hnext 0%nat _ _ eq_refl eq_refl) as [Hnd _].
Defined.

Lemma no_fetch_at_max_depth_witness :
  ∃ r st',
    main Fixture.env Fixture.args empty_state = (Ret r, st') ∧
    length (requests st') = 3%nat ∧
    Forall (λ rq : Z * string, 0 <= rq.1 - 1 < 3) (requests st').
Proof.
  destruct (no_fetch_at_max_depth Fixture.env Fixture.base "mirror" "data/" 3
              Fixture.args empty_state)
    as (_ & _ & _ & r & st' & Hrun & _ & _ & new & Hnew & Hall).
  exists r, st'. split; [exact Hrun |].
  simpl in Hnew. rewrite Hnew. split; [| exact Hall].
  rewrite <- Hnew. clear Hnew Hall.
  vm_compute in Hrun. injection Hrun as _ Hst. by subst st'.
Defined.





(** ** The listing parser *)

Lemma fold_add_common_prefix (l : list Element) (acc : list (option string)) :
  fold_left Utils.add_common_prefix l acc = acc ++ flat_map prefix_texts l.
Proof.
  revert acc. induction l as [|c l IH]; intros acc; simpl.
  - by rewrite app_nil_r.
  - rewrite IH. unfold Utils.add_common_prefix, prefix_texts.
    destruct (ET.find _ c); simpl; [by rewrite <- app_assoc | done].
Qed.

Lemma get_common_prefixes_same (W : Env) (xml_string : string) :
  get_common_prefixes W xml_string = Utils.get_common_prefixes W xml_string.
Proof. reflexivity. Qed.

Lemma get_common_prefixes_parsed (W : Env) (doc : string) (root : Element) :
  ET_fromstring W doc = Ret root →
  Utils.get_common_prefixes W doc =
  Ret (flat_map prefix_texts (ET.findall (ET.s3 "CommonPrefixes") root)).
Proof.
  intros Hp. unfold Utils.get_common_prefixes. rewrite Hp.
  by rewrite fold_add_common_prefix.
Qed.

Lemma worker_success (W : Env) (p save_dir : string) (retries : Z)
    (xml_content doc : string) (l : list (option string)) :
  fetched W (setup_session retries (1 # 2)) (S3_BASE_URL +:+ p) =
    Ret xml_content →
  bytes_decode W xml_content = Ret doc →
  get_common_prefixes W doc = Ret l →
  worker_outcome W (Some p, save_dir, retries) =
    (true, "",
     path_join W (path_join W save_dir p)
       ("directory_" +:+ PyStr.rstrip "_" (PyStr.replace "/" "_" p) +:+ ".xml"),
     l).
Proof.
  unfold fetched, worker_outcome, download_xml_worker. intros Hf Hd Hg. run.
  destruct (session_get W _ _) as [response|e0]; simpl; [| done].
  destruct (raise_for_status response); simpl; [| done].
  destruct (response_content response); simpl; [| done].
  simplify_eq. rewrite Hd. simpl. by rewrite Hg.
Qed.

(** C10. A well-formed listing with a [CommonPrefixes] element whose
    [Prefix] child is there and empty makes the parser return a list that
    holds [None]; the level-synchronized crawler, when the listing is that
    of the start prefix and the depth bound allows a second level, puts
    [None] in the frontier it dispatches next; the recursive crawler calls
    itself on [None], and that call raises. *)
Theorem empty_prefix_gives_None_child (W : Env) (args : Args) (doc : string)
    (root : Element) :
  ET_fromstring W doc = Ret root →
  has_empty_prefix root →
  (∃ l, Utils.get_common_prefixes W doc = Ret l ∧ None ∈ l) ∧
  (∃ l, get_common_prefixes W doc = Ret l ∧ None ∈ l) ∧
  (∀ st xml_content,
     fetched W (setup_session (retries args) (1 # 2))
       (S3_BASE_URL +:+ start_prefix args) = Ret xml_content →
     bytes_decode W xml_content = Ret doc →
     pool_get W (Some (start_prefix args)) = None →
     1 < max_depth args →
     ∃ r st' F,
       main W args st = (Ret r, st') ∧
       frontiers r !! 1%nat = Some F ∧ None ∈ F) ∧
  (∀ fuel s3_base_url save_dir max_depth d st,
     d < max_depth →
     ∃ e st',
       Utils.process_s3_directory_recursive (S fuel) W s3_base_url None
         save_dir max_depth d st = Some (Raise e, st') ∧
       exn_cls e = TypeError).
Proof.
  intros Hparse (cp & pe & Hcp & Hfind & Htext).
  assert (None ∈ flat_map prefix_texts
                   (ET.findall (ET.s3 "CommonPrefixes") root)) as Hnone.
  { apply list_elem_of_In, in_flat_map. exists cp.
    split; [by apply list_elem_of_In |].
    unfold prefix_texts. rewrite Hfind, Htext. by left. }
  pose proof (get_common_prefixes_parsed W doc root Hparse) as Hg.
  split; [eauto |]. split; [rewrite get_common_prefixes_same; eauto |].
  split.
  - intros st xml_content Hf Hd Hpool Hdepth.
    destruct (main_effect W args st)
      as (r & st' & Hrun & _ & Hch & Hend & _).
    pose proof (worker_success W (start_prefix args) (save_dir args)
                  (retries args) xml_content doc _ Hf Hd Hg) as Hw.
    assert (flat_map (children_received W)
              (map (task_of (save_dir args) (retries args))
                 [Some (start_prefix args)]) =
            flat_map prefix_texts (ET.findall (ET.s3 "CommonPrefixes") root))
      as Hchildren.
    { simpl. unfold children_received, result_get, task_of. simpl.
      rewrite Hpool, Hw. by rewrite app_nil_r. }
    exists r, st'.
    destruct (frontiers r) as [|F0 [|F1 Fs]].
    + destruct Hend as [Hend | Hend]; [simpl in Hend; lia | done].
    + destruct Hch as (_ & -> & _). rewrite list_set_singleton in Hend.
      destruct Hend as [Hend | Hend]; [simpl in Hend; lia |].
      cbn [ended] in Hend. rewrite Hchildren in Hend. rewrite Hend in Hnone.
      by apply elem_of_nil in Hnone.
    + exists F1. split; [done |]. split; [done |].
      destruct Hch as (_ & -> & _ & -> & _).
      rewrite list_set_singleton, Hchildren. by apply elem_of_list_set.
  - intros fuel s3_base_url save_dir max_depth d st Hlt.
    cbn [Utils.process_s3_directory_recursive].
    destruct (Z.geb_spec d max_depth) as [Hge | _]; [lia |].
    simpl. eauto.
Qed.

Lemma empty_prefix_gives_None_child_witness :
  ∃ r st' F,
    main Fixture.env Fixture.args empty_state = (Ret r, st') ∧
    frontiers r !! 1%nat = Some F ∧ None ∈ F.
Proof.
  destruct (empty_prefix_gives_None_child Fixture.env Fixture.args
              "<listing data/>"
              (Fixture.listing
                 [Some "data/a/"; Some "data/b/"; Some "data/a/"; None] [])
              eq_refl) as (_ & _ & H & _).
  - exists (Fixture.common_prefix None),
      (mkElement (ET.s3 "Prefix") None []).
    split; [| split; reflexivity].
    vm_compute. do 3 right. left.
  - apply (H empty_state "<listing data/>" eq_refl eq_refl eq_refl).
    simpl. lia.
Defined.

(** C5, as stated: a malformed listing and a well-formed one never give the
    caller of [get_common_prefixes] the same result. It fails: the text
    that is not XML and the empty listing both give the empty list. *)
Lemma parse_error_indistinguishable :
  ¬ (∀ (W : Env) (bad good : string) (e : exn) (root : Element),
       ET_fromstring W bad = Raise e → is_ParseError e = true →
       ET_fromstring W good = Ret root →
       Utils.get_common_prefixes W bad ≠ Utils.get_common_prefixes W good).
Proof.
  intros H.
  by apply (H Fixture.env "<<< not xml" "<listing empty/>"
              (Exn ParseError "syntax error: line 1, column 0")
              (Fixture.listing [] []) eq_refl eq_refl eq_refl).
Qed.

(** C5, amended. On a malformed listing the parsers catch the parse error
    and return the empty list, as they do on a listing without the
    elements: the worker reports success with no children, the recursive
    crawler mirrors the document and visits nothing, the downloader finds
    no key; only [count_zip_files_in_xml] hands the error text to its
    caller. On a well-formed listing without [CommonPrefixes] or without
    [Contents] the result is the empty list, not an error. *)
Theorem malformed_listing_gives_nothing (W : Env) (doc : string) :
  (∀ e,
     ET_fromstring W doc = Raise e → is_ParseError e = true →
     Utils.get_common_prefixes W doc = Ret [] ∧
     get_common_prefixes W doc = Ret [] ∧
     Utils.get_zip_files_from_xml W doc = Ret [] ∧
     (∀ p save_dir retries xml_content,
        fetched W (setup_session retries (1 # 2)) (S3_BASE_URL +:+ p) =
          Ret xml_content →
        bytes_decode W xml_content = Ret doc →
        ∃ xml_path,
          worker_outcome W (Some p, save_dir, retries) =
            (true, "", xml_path, [])) ∧
     (∀ fuel s3_base_url p save_dir max_depth d st,
        d < max_depth →
        fetched W default_session (s3_base_url +:+ p) = Ret doc →
        ∃ st',
          Utils.process_s3_directory_recursive (S fuel) W s3_base_url
            (Some p) save_dir max_depth d st = Some (Ret tt, st') ∧
          requests st' = requests st ++ [(d, s3_base_url +:+ p)] ∧
          files st' =
            <[path_join W (path_join W save_dir p) (Utils.xml_filename p) := doc]>
              (files st)) ∧
     (∀ xml_file_path content st,
        files st !! xml_file_path = Some content →
        bytes_decode W content = Ret doc →
        DownloadZipData.extract_zip_files_from_xml W xml_file_path st =
          (Ret [], st) ∧
        CountXmlZipFiles.count_zip_files_in_xml W xml_file_path st =
          (Ret (xml_file_path, 0, [], "XML解析错误: " +:+ exn_str e), st))) ∧
  (∀ root,
     ET_fromstring W doc = Ret root →
     (ET.findall (ET.s3 "CommonPrefixes") root = [] →
      Utils.get_common_prefixes W doc = Ret [] ∧
      get_common_prefixes W doc = Ret []) ∧
     (ET.findall (ET.s3 "Contents") root = [] →
      Utils.get_zip_files_from_xml W doc = Ret [] ∧
      ∀ xml_file_path content st,
        files st !! xml_file_path = Some content →
        bytes_decode W content = Ret doc →
        DownloadZipData.extract_zip_files_from_xml W xml_file_path st =
          (Ret [], st) ∧
        CountXmlZipFiles.count_zip_files_in_xml W xml_file_path st =
          (Ret (xml_file_path, 0, [], ""), st))).
Proof.
  split.
  - intros e Hparse He.
    assert (Utils.get_common_prefixes W doc = Ret []) as Hg
      by (unfold Utils.get_common_prefixes; by rewrite Hparse, He).
    assert (exn_cls e = ParseError) as Hcls
      by (unfold is_ParseError in He; by destruct (exn_cls e)).
    split; [done |]. split; [done |]. split; [| split; [| split]].
    + unfold Utils.get_zip_files_from_xml. by rewrite Hparse, He.
    + intros p save_dir retries xml_content Hf Hd. eexists.
      by apply (worker_success W p save_dir retries xml_content doc).
    + intros fuel s3_base_url p save_dir max_depth d st Hlt Hf.
      cbn [Utils.process_s3_directory_recursive].
      destruct (Z.geb_spec d max_depth) as [Hge | _]; [lia |].
      simpl. rewrite fetch_directory_eq. simpl. rewrite Hf, Hg. simpl.
      eauto.
    + intros xml_file_path content st Hfile Hd.
      unfold DownloadZipData.extract_zip_files_from_xml,
        CountXmlZipFiles.count_zip_files_in_xml, try_except, bind, lift,
        Fs.read, ret.
      rewrite Hfile, Hd, Hparse, Hcls. done.
  - intros root Hparse. split.
    + intros Hnone.
      unfold get_common_prefixes, Utils.get_common_prefixes.
      by rewrite Hparse, Hnone.
    + intros Hnone. split.
      * unfold Utils.get_zip_files_from_xml. by rewrite Hparse, Hnone.
      * intros xml_file_path content st Hfile Hd.
        unfold DownloadZipData.extract_zip_files_from_xml,
          CountXmlZipFiles.count_zip_files_in_xml, try_except, bind, lift,
          Fs.read, ret.
        rewrite Hfile, Hd, Hparse, Hnone. done.
Qed.

Lemma malformed_listing_gives_nothing_witness :
  Utils.get_common_prefixes Fixture.env "<<< not xml" = Ret [] ∧
  Utils.get_zip_files_from_xml Fixture.env "<listing empty/>" = Ret [].
Proof.
  destruct (malformed_listing_gives_nothing Fixture.env "<<< not xml")
    as (Hbad & _).
  destruct (malformed_listing_gives_nothing Fixture.env "<listing empty/>")
    as (_ & Hgood).
  split.
  - apply (Hbad (Exn ParseError "syntax error: line 1, column 0")
             eq_refl eq_refl).
  - apply (Hgood (Fixture.listing [] []) eq_refl). reflexivity.
Defined.

(** ** The name of the mirror file *)

Lemma worker_files (W : Env) (p save_dir : string) (retries : Z) (st : State) :
  files (snd (download_xml_worker W (Some p, save_dir, retries) st)) =
  match fetched W (setup_session retries (1 # 2)) (S3_BASE_URL +:+ p) with
  | Ret xml_content =>
      <[path_join W (path_join W save_dir p) (Utils.xml_filename p) :=
          xml_content]> (files st)
  | Raise _ => files st
  end.
Proof.
  unfold fetched, download_xml_worker. run.
  destruct (session_get W _ _) as [response|e0]; simpl; [| done].
  destruct (raise_for_status response); simpl; [| done].
  destruct (response_content response) as [xml_content|e]; simpl; [| done].
  rewrite lookup_insert_eq. simpl.
  destruct (bytes_decode W xml_content) as [xml_string|e]; simpl.
  - destruct (get_common_prefixes W xml_string); simpl;
      by rewrite insert_insert_eq.
  - by rewrite insert_insert_eq.
Qed.




Import DownloadZipData.

(** ** The archive downloader *)

Lemma touches_refl (path : string) (st : State) : touches path st st.
Proof. by split. Qed.

Lemma touches_trans (path : string) (st1 st2 st3 : State) :
  touches path st1 st2 → touches path st2 st3 → touches path st1 st3.
Proof.
  intros [H1 D1] [H2 D2]. split; [| set_solver].
  intros q Hq. by rewrite H2, H1.
Qed.

Lemma touches_set_file (path data : string) (st : State) :
  touches path st (Fs.set_file path data st).
Proof. split; [| done]. intros q Hq. simpl. by rewrite lookup_insert_ne. Qed.

Lemma write_chunks_effect (path : string) (chunks : list string)
    (cut : option exn) (st : State) :
  path ∈ dom (files st) →
  ∃ r st',
    write_chunks path chunks cut st = (r, st') ∧
    touches path st st' ∧ path ∈ dom (files st').
Proof.
  revert st. induction chunks as [|chunk rest IH]; intros st Hin; simpl.
  - destruct cut; eexists _, st; (split; [reflexivity |]);
      split; [apply touches_refl | done | apply touches_refl | done].
  - unfold bind. destruct (PyStr.truthy chunk).
    + unfold Fs.write at 1.
      destruct (IH (Fs.set_file path (default "" (files st !! path) +:+ chunk) st))
        as (r & st' & Hrun & Ht & Hd).
      { simpl. rewrite dom_insert. set_solver. }
      exists r, st'. rewrite Hrun. split; [done |]. split; [| done].
      eapply touches_trans; [apply touches_set_file | done].
    + unfold ret at 1. destruct (IH st Hin) as (r & st' & Hrun & Ht & Hd).
      exists r, st'. by rewrite Hrun.
Qed.

(** What one worker does. *)
Lemma download_file_worker_effect (W : Env) (url local_path : string)
    (retries : Z) (st : State) :
  ∃ success st',
    download_file_worker W (url, local_path, retries) st =
      (Ret (success, url, local_path), st') ∧
    touches local_path st st' ∧
    (exists_in st local_path → success = true ∧ st' = st) ∧
    (success = true → exists_in st' local_path) ∧
    (success = false → files st' !! local_path = None).
Proof.
  unfold download_file_worker. unfold try_except at 1.
  unfold bind at 1, Fs.exists_ at 1.
  destruct (bool_decide (local_path ∈ dom (files st)) ||
            bool_decide (local_path ∈ dirs st)) eqn:Hex.
  { exists true, st. unfold ret. split; [done |].
    split; [apply touches_refl |]. split; [done |]. split; [| done].
    intros _. apply orb_true_iff in Hex as [H%bool_decide_eq_true | H%bool_decide_eq_true];
      [by left | by right]. }
  apply orb_false_iff in Hex as [Hf%bool_decide_eq_false Hd%bool_decide_eq_false].
  assert (¬ exists_in st local_path) as Hnot by (by intros [|]).
  (* the handler *)
  assert (∀ st1, touches local_path st st1 →
            ∃ st',
              (there <- Fs.exists_ local_path ;;
               (if there : bool
                then try_except (Fs.unlink local_path) (fun _ => ret tt)
                else ret tt) ;;;
               ret (false, url, local_path)) st1 =
                (Ret (false, url, local_path), st') ∧
              touches local_path st st' ∧
              files st' !! local_path = None) as Hhandler.
  { intros st1 Ht. unfold bind, Fs.exists_, try_except, Fs.unlink, ret.
    destruct (bool_decide (local_path ∈ dom (files st1)) ||
              bool_decide (local_path ∈ dirs st1)) eqn:Hex1; simpl.
    - destruct (files st1 !! local_path) eqn:Hl; simpl.
      + eexists. split; [reflexivity |]. simpl. split; [| apply lookup_delete_eq].
        destruct Ht as [Hq Hdirs]. split; [| done].
        intros q Hne. simpl. by rewrite lookup_delete_ne, Hq.
      + eexists. split; [reflexivity |]. done.
    - apply orb_false_iff in Hex1 as [H1%bool_decide_eq_false _].
      eexists. split; [reflexivity |]. split; [done |].
      by apply not_elem_of_dom. }
  (* the body *)
  unfold bind at 1, Fs.mkdir at 1. unfold bind at 1, http_get at 1.
  set (st1 := {| files := _; dirs := _; level_shown := _;
                 requests := _ ++ _; log := _ |}).
  assert (touches local_path st st1) as Ht1 by (split; [done | set_solver]).
  destruct (session_get W _ url) as [response|e].
  2: { destruct (Hhandler st1 Ht1) as (st' & Hrun & Ht & Hnone).
       exists false, st'. rewrite Hrun.
       (split; [done |]); (split; [done |]); split; [by intros ? |]; by split. }
  unfold bind at 1, lift at 1.
  destruct (raise_for_status response).
  2: { destruct (Hhandler st1 Ht1) as (st' & Hrun & Ht & Hnone).
       exists false, st'. rewrite Hrun.
       (split; [done |]); (split; [done |]); split; [by intros ? |]; by split. }
  unfold bind at 1, lift at 1.
  destruct (total_size_of W response) as [total_size|e].
  2: { destruct (Hhandler st1 Ht1) as (st' & Hrun & Ht & Hnone).
       exists false, st'. rewrite Hrun.
       (split; [done |]); (split; [done |]); split; [by intros ? |]; by split. }
  unfold bind at 1, Fs.open_w at 1.
  set (st2 := Fs.set_file local_path "" st1).
  assert (touches local_path st st2) as Ht2
    by (eapply touches_trans; [done | apply touches_set_file]).
  assert (local_path ∈ dom (files st2)) as Hin2
    by (simpl; rewrite dom_insert; set_solver).
  unfold bind at 1.
  destruct (total_size =? 0).
  - unfold bind at 1, lift at 1.
    destruct (response_content response) as [content|e].
    + unfold Fs.write, ret. eexists true, _. split; [reflexivity |].
      split; [eapply touches_trans; [done | apply touches_set_file] |].
      split; [by intros ? |]. split; [| done].
      intros _. left. apply elem_of_dom. eexists. apply lookup_insert_eq.
    + destruct (Hhandler st2 Ht2) as (st' & Hrun & Ht & Hnone).
      exists false, st'. rewrite Hrun.
       (split; [done |]); (split; [done |]); split; [by intros ? |]; by split.
  - destruct (write_chunks_effect local_path (body_chunks response)
                (body_error response) st2 Hin2)
      as ([[]|e] & st3 & Hrun3 & Ht3 & Hin3); rewrite Hrun3.
    + unfold ret. exists true, st3. split; [done |].
      split; [by eapply touches_trans |]. split; [by intros ? |]. split; [| done].
      intros _. by left.
    + destruct (Hhandler st3 ltac:(by eapply touches_trans))
        as (st' & Hrun & Ht & Hnone).
      exists false, st'. rewrite Hrun.
       (split; [done |]); (split; [done |]); split; [by intros ? |]; by split.
Qed.

Lemma download_file_worker_keeps (W : Env) (task : Task) (st : State)
    (r : Exc (bool * string * string)) (st' : State) (q : string) :
  download_file_worker W task st = (r, st') →
  exists_in st q → exists_in st' q.
Proof.
  destruct task as [[url local_path] retries]. intros Hrun Hq.
  destruct (download_file_worker_effect W url local_path retries st)
    as (success & st'' & Hrun' & [Hfiles Hdirs] & Hskip & _).
  rewrite Hrun in Hrun'. injection Hrun' as -> ->.
  destruct (decide (q = local_path)) as [-> | Hne].
  - by destruct (Hskip Hq) as [_ ->].
  - destruct Hq as [Hq | Hq]; [left | right; by apply Hdirs].
    apply elem_of_dom. rewrite Hfiles by done. by apply elem_of_dom.
Qed.

Lemma download_all_effect (W : Env) (download_tasks : list Task) (rep : Report)
    (st : State) :
  ∃ rep' st',
    download_all W download_tasks rep st = (Ret rep', st') ∧
    successful_downloads rep' + failed_downloads rep' =
      successful_downloads rep + failed_downloads rep +
      Z.of_nat (length download_tasks) ∧
    (∃ more, failed_files rep' = failed_files rep ++ more) ∧
    (∀ q, exists_in st q → exists_in st' q) ∧
    (∀ url local_path retries,
       (url, local_path, retries) ∈ download_tasks →
       exists_in st' local_path ∨ url ∈ failed_files rep').
Proof.
  revert rep st. induction download_tasks as [|task rest IH]; intros rep st.
  - exists rep, st. simpl. unfold ret. split; [done |]. split; [lia |].
    split; [exists []; by rewrite app_nil_r |]. split; [done |].
    intros ??? H. by apply elem_of_nil in H.
  - destruct task as [[url local_path] retries]. cbn [download_all].
    destruct (download_file_worker_effect W url local_path retries st)
      as (success & st1 & Hrun & Ht & Hskip & Hok & Hfail).
    unfold bind at 1. rewrite Hrun.
    match goal with
    | |- context [download_all W rest ?r st1] =>
        destruct (IH r st1) as (rep' & st' & Hall & Hsum & [more Hmore] &
                                Hkeep & Hevery)
    end.
    exists rep', st'. split; [done |]. split; [| split; [| split]].
    + destruct success; simpl in Hsum; rewrite Hsum; cbn [length]; lia.
    + destruct success; simpl in Hmore; rewrite Hmore;
        [eauto | rewrite <- app_assoc; eauto].
    + intros q Hq. apply Hkeep.
      by eapply download_file_worker_keeps.
    + intros u p r [Heq | Hin]%elem_of_cons.
      * injection Heq as -> -> ->. destruct success.
        -- left. apply Hkeep. by apply Hok.
        -- right. rewrite Hmore. simpl. apply elem_of_app. left.
           apply elem_of_app. right. by left.
      * by eapply Hevery.
Qed.



Example download_cut_short_leaves_nothing :
  ∃ st',
    download_file_worker Fixture.env
      ("https://data.binance.vision/data/a/x-2024-05.zip",
       "downloads/data/a/x-2024-05.zip", 3) empty_state =
    (Ret (false, "https://data.binance.vision/data/a/x-2024-05.zip",
          "downloads/data/a/x-2024-05.zip"), st') ∧
    files st' = ∅.
Proof. eexists. split; [vm_compute; reflexivity | reflexivity]. Qed.

(** * Further properties *)

(** ** The failure log of utils.py *)

(** X1. [save_error_url] appends the text and a line break to the file,
    which it creates when it is missing, and changes nothing else; two
    calls leave both lines, in the order of the calls, after what the file
    held. *)
Theorem save_error_url_appends (a b loacl : string) (st : State) :
  ∃ st1 st2,
    Utils.save_error_url a loacl st = (Ret tt, st1) ∧
    Utils.save_error_url b loacl st1 = (Ret tt, st2) ∧
    files st1 !! loacl =
      Some (default "" (files st !! loacl) +:+ (a +:+ newline)) ∧
    files st2 !! loacl =
      Some (default "" (files st !! loacl) +:+
            ((a +:+ newline) +:+ (b +:+ newline))) ∧
    (∀ q, q ≠ loacl → files st2 !! q = files st !! q) ∧
    dirs st2 = dirs st ∧ requests st2 = requests st ∧ log st2 = log st.
Proof.
  eexists _, _. rewrite !save_error_url_eq. split; [reflexivity |].
  split; [reflexivity |]. simpl. rewrite !lookup_insert_eq. simpl.
  rewrite append_assoc. repeat split; try done.
  intros q Hq. by rewrite !lookup_insert_ne.
Qed.

(** ** The extraction of the keys *)

Lemma zip_not_checksum (text : string) :
  PyStr.endswith text ".zip" = true →
  PyStr.endswith text ".zip.CHECKSUM" = false.
Proof.
  intros [p ->]%endswith_spec. apply not_true_iff_false.
  intros [q Hq]%endswith_spec. revert Hq.
  by apply (last_char_neq p q ".zi" ".zip.CHECKSU").
Qed.

Lemma add_zip_file_same (zip_files : list string) (contents_elem : Element) :
  Utils.add_zip_file zip_files contents_elem =
    DownloadZipData.add_zip_file zip_files contents_elem ∧
  CountXmlZipFiles.add_zip_file zip_files contents_elem =
    DownloadZipData.add_zip_file zip_files contents_elem.
Proof.
  split; [| done].
  unfold Utils.add_zip_file, DownloadZipData.add_zip_file.
  destruct (ET.find _ contents_elem) as [key_elem|]; [| done].
  destruct (ET.text key_elem) as [text|]; [| done].
  destruct (PyStr.endswith text ".zip") eqn:Hz;
    [by rewrite (zip_not_checksum text Hz) | done].
Qed.

Lemma fold_add_zip_file_same (l : list Element) (acc : list string) :
  fold_left Utils.add_zip_file l acc =
  fold_left DownloadZipData.add_zip_file l acc.
Proof.
  revert acc. induction l as [|c l IH]; intros acc; simpl; [done |].
  by rewrite (proj1 (add_zip_file_same acc c)), IH.
Qed.

(** X2. The test for ".zip.CHECKSUM" changes nothing: a key that ends with
    ".zip" does not end with ".zip.CHECKSUM". So [get_zip_files_from_xml]
    of utils.py, which only looks for ".zip", finds in a document what
    [extract_zip_files_from_xml] and [count_zip_files_in_xml] find in a
    file that holds it. *)
Theorem zip_extractors_agree (W : Env) (xml_file_path content doc : string)
    (zip_files : list string) (st : State) :
  files st !! xml_file_path = Some content →
  bytes_decode W content = Ret doc →
  Utils.get_zip_files_from_xml W doc = Ret zip_files →
  DownloadZipData.extract_zip_files_from_xml W xml_file_path st =
    (Ret zip_files, st) ∧
  (∃ error,
     CountXmlZipFiles.count_zip_files_in_xml W xml_file_path st =
       (Ret (xml_file_path, Z.of_nat (length zip_files), zip_files, error), st)) ∧
  (∀ text, PyStr.endswith text ".zip" = true →
           PyStr.endswith text ".zip.CHECKSUM" = false).
Proof.
  intros Hfile Hd Hg. split; [| split; [| apply zip_not_checksum]].
  - unfold DownloadZipData.extract_zip_files_from_xml, try_except, bind, lift,
      Fs.read, ret. rewrite Hfile, Hd.
    unfold Utils.get_zip_files_from_xml in Hg.
    destruct (ET_fromstring W doc) as [root|e].
    + injection Hg as <-. by rewrite fold_add_zip_file_same.
    + destruct (is_ParseError e); by simplify_eq.
  - unfold CountXmlZipFiles.count_zip_files_in_xml, try_except, bind, lift,
      Fs.read, ret. rewrite Hfile, Hd.
    unfold Utils.get_zip_files_from_xml in Hg.
    destruct (ET_fromstring W doc) as [root|e].
    + injection Hg as <-. rewrite fold_add_zip_file_same. eauto.
    + unfold is_ParseError in Hg.
      destruct (exn_cls e); simplify_eq; simpl; eauto.
Qed.

Lemma zip_extractors_agree_witness :
  DownloadZipData.extract_zip_files_from_xml Fixture.env "mirror/a.xml"
    (Fs.set_file "mirror/a.xml" "<listing data/a/>" empty_state) =
  (Ret ["data/a/x-2024-04.zip"; "data/a/x-2024-05.zip"],
   Fs.set_file "mirror/a.xml" "<listing data/a/>" empty_state).
Proof.
  by apply (zip_extractors_agree Fixture.env "mirror/a.xml"
              "<listing data/a/>" "<listing data/a/>").
Defined.

Lemma fold_add_zip_file (l : list Element) (acc : list string) :
  fold_left DownloadZipData.add_zip_file l acc =
  acc ++ flat_map (DownloadZipData.add_zip_file []) l.
Proof.
  revert acc. induction l as [|c l IH]; intros acc; simpl.
  - by rewrite app_nil_r.
  - rewrite IH, app_assoc. f_equal. unfold DownloadZipData.add_zip_file.
    destruct (ET.find _ c) as [k|]; [| by rewrite app_nil_r].
    destruct (ET.text k) as [t|]; [| by rewrite app_nil_r].
    destruct (_ && _); [done | by rewrite app_nil_r].
Qed.

(** X3. For a file that holds a well-formed listing,
    [extract_zip_files_from_xml] returns the wanted keys of the listing and
    nothing else: a key is in the result exactly when some [Contents] child
    of the root has it as the text of its first [Key] child and it ends
    with ".zip" but not with ".zip.CHECKSUM". Keys of elements deeper in the
    tree, and keys of a [Key] that is not the first, are not found. *)
Theorem extracted_keys_are_the_wanted_ones (W : Env)
    (xml_file_path content doc : string) (root : Element) (st : State) :
  files st !! xml_file_path = Some content →
  bytes_decode W content = Ret doc →
  ET_fromstring W doc = Ret root →
  ∃ zip_files,
    DownloadZipData.extract_zip_files_from_xml W xml_file_path st =
      (Ret zip_files, st) ∧
    zip_files =
      flat_map (DownloadZipData.add_zip_file [])
        (ET.findall (ET.s3 "Contents") root) ∧
    (length zip_files ≤ length (ET.findall (ET.s3 "Contents") root))%nat ∧
    ∀ key,
      key ∈ zip_files ↔
      ∃ contents_elem key_elem,
        contents_elem ∈ ET.findall (ET.s3 "Contents") root ∧
        ET.find (ET.s3 "Key") contents_elem = Some key_elem ∧
        ET.text key_elem = Some key ∧ Wanted key.
Proof.
  intros Hfile Hd Hparse. eexists. split; [| split; [reflexivity |]].
  - unfold DownloadZipData.extract_zip_files_from_xml, try_except, bind, lift,
      Fs.read, ret. rewrite Hfile, Hd, Hparse. by rewrite fold_add_zip_file.
  - split.
    + induction (ET.findall _ root) as [|c l IH]; simpl; [done |].
      rewrite length_app. unfold DownloadZipData.add_zip_file at 1.
      destruct (ET.find _ c) as [k|]; [| simpl; lia].
      destruct (ET.text k) as [t|]; [| simpl; lia].
      destruct (_ && _); simpl; lia.
    + intros key. rewrite list_elem_of_In, in_flat_map. split.
      * intros (c & Hc & Hin). unfold DownloadZipData.add_zip_file in Hin.
        destruct (ET.find _ c) as [k|] eqn:Hk; [| done].
        destruct (ET.text k) as [t|] eqn:Ht; [| done].
        destruct (_ && _) eqn:Hw; [| done].
        destruct Hin as [<- | []]. exists c, k.
        rewrite list_elem_of_In. by apply wanted_decide in Hw.
      * intros (c & k & Hc & Hk & Ht & Hw). exists c.
        split; [by apply list_elem_of_In |].
        unfold DownloadZipData.add_zip_file. rewrite Hk, Ht.
        apply wanted_decide in Hw. rewrite Hw. by left.
Qed.

Lemma extracted_keys_are_the_wanted_ones_witness :
  ∃ zip_files,
    DownloadZipData.extract_zip_files_from_xml Fixture.env "mirror/a.xml"
      (Fs.set_file "mirror/a.xml" "<listing data/a/>" empty_state) =
      (Ret zip_files,
       Fs.set_file "mirror/a.xml" "<listing data/a/>" empty_state) ∧
    length zip_files = 2%nat.
Proof.
  destruct (extracted_keys_are_the_wanted_ones Fixture.env "mirror/a.xml"
              "<listing data/a/>" "<listing data/a/>" _
              (Fs.set_file "mirror/a.xml" "<listing data/a/>" empty_state)
              eq_refl eq_refl eq_refl) as (zip_files & Hrun & -> & _).
  eexists. split; [exact Hrun | reflexivity].
Defined.

(** ** The listing parser, once more *)



(** ** The worker of the level-synchronized crawler *)

(** X5. A worker that fetched the listing and then fails, because the body
    is not UTF-8 or because the parser raises something other than a parse
    error, reports failure with the text of the exception and no child; the
    mirror file it wrote before stays in place. *)
Theorem worker_fails_after_writing (W : Env) (p save_dir : string)
    (retries : Z) (xml_content : string) (e : exn) (st : State) :
  fetched W (DownloadXmlMultiprocess.setup_session retries (1 # 2))
    (DownloadXmlMultiprocess.S3_BASE_URL +:+ p) = Ret xml_content →
  (bytes_decode W xml_content = Raise e ∨
   ∃ doc, bytes_decode W xml_content = Ret doc ∧
          ET_fromstring W doc = Raise e ∧ is_ParseError e = false) →
  ∃ st',
    DownloadXmlMultiprocess.download_xml_worker W (Some p, save_dir, retries)
      st = (Ret (false, exn_str e, "", []), st') ∧
    files st' =
      <[path_join W (path_join W save_dir p) (Utils.xml_filename p) :=
          xml_content]> (files st).
Proof.
  intros Hf Hlate.
  pose proof (worker_files W p save_dir retries st) as Hfiles.
  rewrite Hf in Hfiles.
  destruct (DownloadXmlMultiprocess.download_xml_worker W _ st)
    as [r st'] eqn:Hrun.
  exists st'. split; [| done]. f_equal.
  revert Hrun. unfold fetched in Hf.
  unfold DownloadXmlMultiprocess.download_xml_worker. run.
  destruct (session_get W _ _) as [response|e0]; simpl; [| done].
  destruct (raise_for_status response); simpl; [| done].
  destruct (response_content response); simpl; [| done].
  simplify_eq. destruct Hlate as [Hd | (doc & Hd & Hp & He)]; rewrite Hd; simpl.
  - by intros [= <- _].
  - unfold DownloadXmlMultiprocess.get_common_prefixes. rewrite Hp, He. simpl.
    by intros [= <- _].
Qed.



Lemma worker_fails_after_writing_witness :
  ∃ st',
    DownloadXmlMultiprocess.download_xml_worker env_not_utf8
      (Some "data/a/", "mirror", 3) empty_state =
      (Ret (false, "'utf-8' codec can't decode byte 0xff", "", []), st') ∧
    files st' =
      {[ "mirror/data/a/directory_data_a.xml" := "<listing data/a/>" ]}.
Proof.
  destruct (worker_fails_after_writing env_not_utf8 "data/a/" "mirror" 3
              "<listing data/a/>"
              (Exn UnicodeDecodeError "'utf-8' codec can't decode byte 0xff")
              empty_state eq_refl (or_introl eq_refl)) as (st' & Hrun & Hfiles).
  exists st'. split; [exact Hrun |]. rewrite Hfiles. reflexivity.
Defined.

(** ** The files of the level-synchronized crawler *)

Lemma files_grow_refl (P : string → Prop) (st : State) : files_grow P st st.
Proof. by split. Qed.

Lemma files_grow_trans (P : string → Prop) (st1 st2 st3 : State) :
  files_grow P st1 st2 → files_grow P st2 st3 → files_grow P st1 st3.
Proof.
  intros [D1 H1] [D2 H2]. split; [eauto |].
  intros q Hq. by rewrite H2, H1.
Qed.







(** ** The recursive crawler, once more *)

Section recursive_more.

Context (W : Env) (s3_base_url save_dir : string) (max_depth : Z).

(** The induction scheme with the directory of the fetch step named. *)
Lemma process_rel_at (R : Z → State → State → Prop) :
  (∀ d st, R d st st) →
  (∀ d st1 st2 st3, R d st1 st2 → R d st2 st3 → R d st1 st3) →
  (∀ d st st', R (d + 1) st st' → R d st st') →
  (∀ d st, d < max_depth → R d st (snd (announce_level d st))) →
  (∀ d st local_dir, d < max_depth → R d st (snd (Fs.mkdir local_dir st))) →
  (∀ d p st r st1, d < max_depth → level_shown st = d →
     Utils.fetch_directory W s3_base_url (Some p) (path_join W save_dir p) st
       = (r, st1) →
     R d st st1) →
  (∀ d text st, d < max_depth →
     R d st (snd (Utils.save_error_url text
                    (path_join W save_dir "errors.log") st))) →
  ∀ fuel prefix d st res st',
    Utils.process_s3_directory_recursive fuel W s3_base_url prefix save_dir
      max_depth d st = Some (res, st') →
    R d st st'.
Proof.
  intros Hrefl Htrans Hmono Hshow Hdir Hfetch Hlog.
  induction fuel as [|fuel IH]; intros prefix d st res st' Hrun; [done |].
  cbn [Utils.process_s3_directory_recursive] in Hrun.
  destruct (Z.geb_spec d max_depth) as [Hge | Hlt].
  { injection Hrun as <- <-. apply Hrefl. }
  destruct prefix as [p|]; simpl in Hrun.
  2: { injection Hrun as <- <-. apply (Hshow d st Hlt). }
  match type of Hrun with
  | context [Utils.fetch_directory _ _ _ _ ?s] => set (st0 := s) in *
  end.
  assert (R d st st0) as H0.
  { eapply Htrans; [apply (Hshow d st Hlt) |].
    change st0 with
      (snd (Fs.mkdir (path_join W save_dir p) (snd (announce_level d st)))).
    apply (Hdir d _ _ Hlt). }
  destruct (Utils.fetch_directory W s3_base_url (Some p)
              (path_join W save_dir p) st0)
    as [[cs|e] st1] eqn:Hf; cbv beta iota in Hrun.
  - assert (R d st0 st1) as H1 by (by eapply Hfetch).
    assert (∀ cs st1 r st2,
              Utils.for_each_child
                (fun c =>
                   Utils.process_s3_directory_recursive fuel W s3_base_url
                     c save_dir max_depth (d + 1)) cs st1 = Some (r, st2) →
              R d st1 st2) as Hloop.
    { clear -IH Hrefl Htrans Hmono.
      induction cs as [|c cs IHcs]; intros st1 r st2 Hrun; simpl in Hrun.
      - injection Hrun as <- <-. apply Hrefl.
      - destruct (Utils.process_s3_directory_recursive fuel W s3_base_url
                    c save_dir max_depth (d + 1) st1)
          as [[[[]|e] sta]|] eqn:Hc;
          [| | done].
        + eapply Htrans; [apply Hmono; eapply IH; eauto | eauto].
        + injection Hrun as <- <-. apply Hmono. eapply IH; eauto. }
    destruct (Utils.for_each_child _ cs st1) as [[[[]|e] st2]|] eqn:Hl;
      [| | done].
    + injection Hrun as <- <-. eauto.
    + injection Hrun as Hrun. apply (f_equal snd) in Hrun. simpl in Hrun.
      subst st'. eapply Htrans; [| apply Hlog; done]. eauto.
  - injection Hrun as Hrun. apply (f_equal snd) in Hrun. simpl in Hrun.
    subst st'. eapply Htrans; [| apply Hlog; done]. eapply Htrans; [done |].
    by eapply Hfetch.
Qed.

Lemma files_grow_same (P : string → Prop) (st st' : State) :
  files st' = files st → files_grow P st st'.
Proof. intros H. split; intros q; by rewrite H. Qed.

Lemma process_files_grow (fuel : nat) (prefix : option string) (d : Z)
    (st : State) (res : Exc unit) (st' : State) :
  Utils.process_s3_directory_recursive fuel W s3_base_url prefix save_dir
    max_depth d st = Some (res, st') →
  files_grow (crawler_file W save_dir) st st' ∧ log st' = log st ∧ dirs st ⊆ dirs st'.
Proof.
  apply (process_rel_at
           (λ _ st st', files_grow (crawler_file W save_dir) st st' ∧ log st' = log st ∧
                        dirs st ⊆ dirs st')).
  - intros _ s. split; [apply files_grow_refl | done].
  - intros _ s1 s2 s3 (G1 & L1 & D1) (G2 & L2 & D2).
    split; [by eapply files_grow_trans |]. split; [congruence | set_solver].
  - done.
  - intros d' s _. simpl. split; [by apply files_grow_same | done].
  - intros d' s local_dir _. simpl. split; [by apply files_grow_same |].
    split; [done | set_solver].
  - intros d' p s r s1 _ _. rewrite fetch_directory_eq. simpl.
    destruct (fetched W default_session _); intros [= _ <-]; simpl.
    + split; [| done]. split; simpl.
      * intros q. rewrite dom_insert. set_solver.
      * intros q Hq. apply lookup_insert_ne. intros <-. apply Hq. right.
        by exists p.
    + split; [by apply files_grow_same | done].
  - intros d' text s _. rewrite save_error_url_eq. simpl.
    split; [| done]. split; simpl.
    + intros q. rewrite dom_insert. set_solver.
    + intros q Hq. apply lookup_insert_ne. intros <-. apply Hq. by left.
Qed.



Lemma for_each_child_requests (fuel : nat) (d : Z)
    (cs : list (option string)) (st : State) (r : Exc unit) (st' : State) :
  Utils.for_each_child
    (λ c, Utils.process_s3_directory_recursive fuel W s3_base_url c
            save_dir max_depth d) cs st = Some (r, st') →
  ∃ new, requests st' = requests st ++ new ∧
         Forall (λ rq : Z * string, d <= rq.1 < max_depth) new.
Proof.
  revert st. induction cs as [|c cs IH]; intros st; simpl.
  - intros [= <- <-]. exists []. by rewrite app_nil_r.
  - destruct (Utils.process_s3_directory_recursive fuel W s3_base_url c
                save_dir max_depth d st) as [[[[]|e] sta]|] eqn:Hc; [| | done].
    + intros Hrest.
      destruct (process_requests W s3_base_url save_dir max_depth _ _ _ _ _ _
                  Hc) as (n1 & H1 & F1).
      destruct (IH _ Hrest) as (n2 & H2 & F2).
      exists (n1 ++ n2). rewrite H2, H1, app_assoc. split; [done |].
      by apply Forall_app.
    + intros [= <- <-].
      by apply (process_requests W s3_base_url save_dir max_depth _ _ _ _ _ _
                  Hc).
Qed.

(** X9. Whatever the recursive crawler does, it deletes no file and
    changes none but [errors.log] and the mirror files below [save_dir]; it
    removes no directory and writes nothing to the logger. *)
Theorem recursive_crawler_writes_only_its_files (fuel : nat)
    (prefix : option string) (d : Z) (st : State) (res : Exc unit)
    (st' : State) :
  Utils.process_s3_directory_recursive fuel W s3_base_url prefix save_dir
    max_depth d st = Some (res, st') →
  (∀ q, q ∈ dom (files st) → q ∈ dom (files st')) ∧
  (∀ q, q ≠ path_join W save_dir "errors.log" →
        (∀ p, q ≠ mirror_path W save_dir p) →
        files st' !! q = files st !! q) ∧
  dirs st ⊆ dirs st' ∧ log st' = log st.
Proof.
  intros Hrun.
  destruct (process_files_grow _ _ _ _ _ _ Hrun) as ([Hdom Hframe] & Hl & Hd).
  split; [done |]. split; [| done].
  intros q Hq Hm. apply Hframe. intros [-> | [p ->]]; [done |]. by apply (Hm p).
Qed.


Lemma process_first_request (fuel : nat) (p : string) (d : Z)
    (st : State) :
  d < max_depth →
  (Z.to_nat (max_depth - d) < fuel)%nat →
  ∃ st' new,
    Utils.process_s3_directory_recursive fuel W s3_base_url (Some p) save_dir
      max_depth d st = Some (Ret tt, st') ∧
    requests st' = requests st ++ (d, s3_base_url +:+ p) :: new ∧
    Forall (λ rq : Z * string, d + 1 <= rq.1 < max_depth) new.
Proof.
  intros Hd Hfuel.
  destruct (process_total W s3_base_url save_dir max_depth fuel (Some p) d st
              Hfuel) as [[res st'] Hrun].
  pose proof (process_str_returns W s3_base_url save_dir max_depth _ _ _ _ _ _
                Hrun) as ->.
  exists st'. destruct fuel as [|fuel]; [done |].
  pose proof Hrun as Hrun0.
  cbn [Utils.process_s3_directory_recursive] in Hrun.
  destruct (Z.geb_spec d max_depth) as [Hge | _]; [lia |]. simpl in Hrun.
  rewrite fetch_directory_eq in Hrun. cbv zeta in Hrun.
  destruct (fetched W default_session _) as [xml_content|e].
  - destruct (Utils.get_common_prefixes W xml_content) as [cs|e].
    + destruct (Utils.for_each_child _ cs _) as [[[[]|e] st2]|] eqn:Hl;
        [| | done].
      * injection Hrun as <-.
        destruct (for_each_child_requests _ _ _ _ _ _ Hl) as (new & Hr & Hall).
        exists new. simpl in Hr. rewrite Hr, <- app_assoc. by split.
      * rewrite save_error_url_eq in Hrun. injection Hrun as <-.
        destruct (for_each_child_requests _ _ _ _ _ _ Hl) as (new & Hr & Hall).
        exists new. simpl in *. rewrite Hr, <- app_assoc. by split.
    + rewrite save_error_url_eq in Hrun. injection Hrun as <-.
      exists []. by split.
  - rewrite save_error_url_eq in Hrun. injection Hrun as <-.
    exists []. by split.
Qed.


End recursive_more.

Lemma recursive_crawler_writes_only_its_files_witness :
  ∃ res st',
    Utils.process_s3_directory_recursive 4 Fixture.env Fixture.base
      (Some "data/") "mirror" 3 0 empty_state = Some (res, st') ∧
    (∀ q, q ≠ "mirror/errors.log" →
          (∀ p, q ≠ mirror_path Fixture.env "mirror" p) →
          files st' !! q = None) ∧
    log st' = [].
Proof.
  destruct (Utils.process_s3_directory_recursive 4 Fixture.env Fixture.base
              (Some "data/") "mirror" 3 0 empty_state)
    as [[res st']|] eqn:Hrun.
  - exists res, st'. split; [reflexivity |].
    destruct (recursive_crawler_writes_only_its_files Fixture.env Fixture.base
                "mirror" 3 4 (Some "data/") 0 empty_state res st' Hrun)
      as (_ & Hframe & _ & Hlog).
    split; [| exact Hlog].
    intros q Hq Hm. rewrite (Hframe q Hq Hm). reflexivity.
  - vm_compute in Hrun. discriminate.
Defined.



(** ** download_xml.py *)

(** X12. The script [download_xml.py] ends without an exception. Its first
    request is the one for the listing of "data/", at depth 0, and all
    others are made at the depths 1 to 9. It deletes no file, changes none
    but [errors.log] and the mirror files below its directory, and writes
    nothing to the logger. *)
Theorem download_xml_script (W : Env) (st : State) :
  ∃ st' new,
    DownloadXml.main W st = Some st' ∧
    requests st' =
      requests st ++
      (0, DownloadXml.s3_base_url +:+ DownloadXml.origin_prefix) :: new ∧
    Forall (λ rq : Z * string, 1 <= rq.1 < 10) new ∧
    (∀ q, q ∈ dom (files st) → q ∈ dom (files st')) ∧
    (∀ q, ¬ crawler_file W DownloadXml.save_dir q →
          files st' !! q = files st !! q) ∧
    log st' = log st.
Proof.
  destruct (process_first_request W DownloadXml.s3_base_url DownloadXml.save_dir
              10 11 DownloadXml.origin_prefix 0 st ltac:(lia) ltac:(simpl; lia))
    as (st' & new & Hrun & Hreq & Hall).
  destruct (process_files_grow _ _ _ _ _ _ _ _ _ _ Hrun) as ([Hd Hf] & Hl & _).
  exists st', new. unfold DownloadXml.main. rewrite Hrun. by repeat split.
Qed.

(** ** The archive downloader, once more *)

Lemma filter_sublist {A} (f : A → bool) (l : list A) :
  List.filter f l `sublist_of` l.
Proof.
  induction l as [|x l IH]; simpl; [done |].
  destruct (f x); [by apply sublist_skip | by apply sublist_cons].
Qed.

Lemma filter_filter_same {A} (f : A → bool) (l : list A) :
  List.filter f (List.filter f l) = List.filter f l.
Proof.
  induction l as [|x l IH]; simpl; [done |].
  destruct (f x) eqn:Hx; simpl; [by rewrite Hx, IH | done].
Qed.

Lemma filter_by_date_sublist (zip_files : list string)
    (year month : option string) :
  DownloadZipData.filter_files_by_date zip_files year month
    `sublist_of` zip_files.
Proof.
  destruct year as [y|], month as [m|]; try done.
  destruct (PyStr.truthy y) eqn:Hy, (PyStr.truthy m) eqn:Hm;
    try (unfold DownloadZipData.filter_files_by_date; by rewrite Hy, Hm).
  rewrite filter_files_by_date_filter by done. apply filter_sublist.
Qed.

(** X13. [filter_files_by_date] only drops keys: what it returns is a
    sublist of what it is given, in the same order and with the same
    repetitions. It works key by key, so it distributes over the
    concatenation of the lists of the XML files, and filtering twice is
    filtering once. Without a year or without a month, [None] or empty, it
    returns the list as it is. *)
Theorem filter_files_by_date_sublist (zip_files more : list string)
    (year month : option string) :
  DownloadZipData.filter_files_by_date zip_files year month
    `sublist_of` zip_files ∧
  DownloadZipData.filter_files_by_date (zip_files ++ more) year month =
    DownloadZipData.filter_files_by_date zip_files year month ++
    DownloadZipData.filter_files_by_date more year month ∧
  DownloadZipData.filter_files_by_date
    (DownloadZipData.filter_files_by_date zip_files year month) year month =
    DownloadZipData.filter_files_by_date zip_files year month ∧
  (PyStr.truthy_opt year = false ∨ PyStr.truthy_opt month = false →
   DownloadZipData.filter_files_by_date zip_files year month = zip_files).
Proof.
  destruct year as [y|], month as [m|]; try (by repeat split).
  destruct (PyStr.truthy y) eqn:Hy, (PyStr.truthy m) eqn:Hm;
    try (unfold DownloadZipData.filter_files_by_date; rewrite Hy, Hm; simpl;
         by repeat split).
  rewrite !filter_files_by_date_filter by done.
  split; [apply filter_sublist |]. split; [apply List.filter_app |].
  split; [apply filter_filter_same |]. simpl. rewrite Hy, Hm. by intros [|].
Qed.

(** X14. A year or a month that [int] does not read, or a month outside 1
    to 12, ends [main] with status 1 before it looks at the disk or the
    network: the state is untouched. The year is read but not checked
    against a range. *)
Theorem invalid_date_is_a_usage_error (W : Env) (args : DownloadZipData.Args)
    (y m : string) (st : State) :
  DownloadZipData.year args = Some y →
  DownloadZipData.month args = Some m →
  PyStr.truthy y = true → PyStr.truthy m = true →
  (∃ e, py_int W y = Raise e ∧ exn_cls e = ValueError) ∨
  (∃ year_int e,
     py_int W y = Ret year_int ∧ py_int W m = Raise e ∧
     exn_cls e = ValueError) ∨
  (∃ year_int month_int,
     py_int W y = Ret year_int ∧ py_int W m = Ret month_int ∧
     ¬ 1 <= month_int <= 12) →
  DownloadZipData.validate W args = Ret (inl 1) ∧
  DownloadZipData.main W args st = (Ret usage_error, st).
Proof.
  intros Hyear Hmonth Hy Hm Hbad.
  assert (DownloadZipData.validate W args = Ret (inl 1)) as Hv.
  { unfold DownloadZipData.validate. rewrite Hyear, Hmonth. simpl.
    rewrite Hy, Hm. simpl.
    destruct Hbad as [(e & -> & He) | [(yi & e & -> & -> & He) |
                                       (yi & mi & -> & -> & Hr)]].
    - by rewrite He.
    - by rewrite He.
    - destruct (Z.leb_spec 1 mi), (Z.leb_spec mi 12); simpl; try done. lia. }
  split; [done |].
  unfold DownloadZipData.main, bind, lift. by rewrite Hv.
Qed.

Lemma invalid_date_is_a_usage_error_witness :
  DownloadZipData.main Fixture.env (zip_args (Some "2024") (Some "13"))
    mirrored = (Ret usage_error, mirrored).
Proof.
  apply (invalid_date_is_a_usage_error Fixture.env
           (zip_args (Some "2024") (Some "13")) "2024" "13" mirrored
           eq_refl eq_refl eq_refl eq_refl).
  right. right. exists 2024, 13. split; [reflexivity |].
  split; [reflexivity | lia].
Defined.

(** *** What a run reads, requests and writes *)

Lemma add_zip_file_wanted (c : Element) :
  Forall Wanted (DownloadZipData.add_zip_file [] c).
Proof.
  unfold DownloadZipData.add_zip_file.
  destruct (ET.find _ c) as [k|]; [| done].
  destruct (ET.text k) as [t|]; [| done].
  destruct (PyStr.truthy t && _) eqn:Hw; [| done].
  apply wanted_decide in Hw. simpl. apply Forall_cons. split; [exact Hw | done].
Qed.

Lemma extract_zip_files_effect (W : Env) (xml_file_path : string) (st : State) :
  ∃ zip_files,
    DownloadZipData.extract_zip_files_from_xml W xml_file_path st =
      (Ret zip_files, st) ∧
    Forall Wanted zip_files.
Proof.
  unfold DownloadZipData.extract_zip_files_from_xml, try_except, bind, lift,
    Fs.read, ret.
  destruct (files st !! xml_file_path) as [content|]; [| by exists []].
  destruct (bytes_decode W content) as [doc|]; [| by exists []].
  destruct (ET_fromstring W doc) as [root|]; [| by exists []].
  eexists. split; [reflexivity |]. rewrite fold_add_zip_file. simpl.
  induction (ET.findall _ root) as [|c l IH]; simpl; [done |].
  apply Forall_app. split; [apply add_zip_file_wanted | done].
Qed.

Lemma extract_all_effect (W : Env) (xml_files : list string)
    (all_zip_files : list string) (st : State) :
  ∃ zip_files,
    DownloadZipData.extract_all W xml_files all_zip_files st =
      (Ret (all_zip_files ++ zip_files), st) ∧
    Forall Wanted zip_files.
Proof.
  revert all_zip_files. induction xml_files as [|f rest IH]; intros acc; simpl.
  - exists []. unfold ret. by rewrite app_nil_r.
  - destruct (extract_zip_files_effect W f st) as (l & Hrun & Hl).
    unfold bind. rewrite Hrun.
    destruct (IH (acc ++ l)) as (l' & Hrest & Hl').
    exists (l ++ l'). rewrite Hrest, app_assoc. split; [done |].
    by apply Forall_app.
Qed.

Lemma write_chunks_trace (path : string) (chunks : list string)
    (cut : option exn) (st : State) :
  trace (snd (DownloadZipData.write_chunks path chunks cut st)) = trace st.
Proof.
  revert st. induction chunks as [|chunk rest IH]; intros st; simpl.
  - by destruct cut.
  - unfold bind. destruct (PyStr.truthy chunk).
    + unfold Fs.write at 1. by rewrite IH.
    + unfold ret at 1. by rewrite IH.
Qed.

Lemma download_file_worker_trace (W : Env) (url local_path : string)
    (retries : Z) (st st' : State) :
  st' = snd (DownloadZipData.download_file_worker W
               (url, local_path, retries) st) →
  log st' = log st ∧ level_shown st' = level_shown st ∧
  (requests st' = requests st ∨
   requests st' = requests st ++ [(level_shown st, url)]).
Proof.
  intros ->.
  set (P := λ s : State,
         log s = log st ∧ level_shown s = level_shown st ∧
         (requests s = requests st ∨
          requests s = requests st ++ [(level_shown st, url)])).
  change (P (snd (DownloadZipData.download_file_worker W
                    (url, local_path, retries) st))).
  assert (∀ st1,
            trace (snd ((there <- Fs.exists_ local_path ;;
                         (if there : bool
                          then try_except (Fs.unlink local_path)
                                 (fun _ => ret tt)
                          else ret tt) ;;;
                         ret (false, url, local_path)) st1)) = trace st1)
    as Hhandler.
  { intros st1. unfold bind, Fs.exists_, try_except, Fs.unlink, ret.
    destruct (_ || _); simpl; [| done].
    by destruct (files st1 !! local_path). }
  assert (∀ st1 : State,
            trace st1 = (requests st ++ [(level_shown st, url)], log st,
                         level_shown st) → P st1) as Hdone.
  { unfold trace. intros st1 [= Hr Hl Hs]. split; [done |]. split; [done |].
    by right. }
  unfold DownloadZipData.download_file_worker. unfold try_except at 1.
  unfold bind at 1, Fs.exists_ at 1.
  destruct (_ || _);
    [unfold ret; simpl; split; [done |]; split; [done |]; by left |].
  unfold bind at 1, Fs.mkdir at 1. unfold bind at 1, http_get at 1.
  set (st1 := {| files := _; dirs := _; level_shown := _;
                 requests := _ ++ _; log := _ |}).
  assert (trace st1 = (requests st ++ [(level_shown st, url)], log st,
                       level_shown st)) as Ht1 by done.
  destruct (session_get W _ url) as [response|e];
    [| apply Hdone; by rewrite Hhandler].
  unfold bind at 1, lift at 1.
  destruct (raise_for_status response);
    [| apply Hdone; by rewrite Hhandler].
  unfold bind at 1, lift at 1.
  destruct (DownloadZipData.total_size_of W response) as [total_size|e];
    [| apply Hdone; by rewrite Hhandler].
  unfold bind at 1, Fs.open_w at 1.
  set (st2 := Fs.set_file local_path "" st1).
  assert (trace st2 = trace st1) as Ht2 by done.
  unfold bind at 1.
  destruct (total_size =? 0).
  - unfold bind at 1, lift at 1.
    destruct (response_content response) as [content|e].
    + unfold Fs.write, ret. apply Hdone. simpl. done.
    + apply Hdone. by rewrite Hhandler, Ht2.
  - pose proof (write_chunks_trace local_path (body_chunks response)
                  (body_error response) st2) as Ht3.
    destruct (DownloadZipData.write_chunks _ _ _ st2) as [[[]|e] st3];
      simpl in Ht3.
    + unfold ret. apply Hdone. simpl. by rewrite Ht3, Ht2.
    + apply Hdone. by rewrite Hhandler, Ht3, Ht2.
Qed.

Lemma download_all_trace (W : Env) (download_tasks : list DownloadZipData.Task)
    (rep : DownloadZipData.Report) (st : State) :
  ∃ rep' st' new,
    DownloadZipData.download_all W download_tasks rep st = (Ret rep', st') ∧
    DownloadZipData.selected rep' = DownloadZipData.selected rep ∧
    DownloadZipData.exit_status rep' = DownloadZipData.exit_status rep ∧
    log st' = log st ∧ level_shown st' = level_shown st ∧
    requests st' = requests st ++ new ∧
    map snd new `sublist_of` map (λ t : DownloadZipData.Task, t.1.1)
                               download_tasks ∧
    (∀ q, q ∉ map (λ t : DownloadZipData.Task, t.1.2) download_tasks →
          files st' !! q = files st !! q).
Proof.
  revert rep st. induction download_tasks as [|task rest IH]; intros rep st.
  - exists rep, st, []. simpl. unfold ret. by rewrite app_nil_r.
  - destruct task as [[url local_path] retries]. cbn [DownloadZipData.download_all].
    destruct (download_file_worker_effect W url local_path retries st)
      as (success & st1 & Hrun & [Hfiles _] & _).
    destruct (download_file_worker_trace W url local_path retries st st1)
      as (Hlog & Hlevel & Hreq); [by rewrite Hrun |].
    unfold bind at 1. rewrite Hrun.
    match goal with
    | |- context [DownloadZipData.download_all W rest ?r st1] =>
        destruct (IH r st1)
          as (rep' & st' & new & Hall & Hsel & Hexit & Hlog' & Hlevel' &
              Hreq' & Hsub & Hframe)
    end.
    assert (DownloadZipData.selected rep' = DownloadZipData.selected rep)
      as Hsel' by (by destruct success).
    assert (DownloadZipData.exit_status rep' = DownloadZipData.exit_status rep)
      as Hexit' by (by destruct success).
    assert (∀ q : string,
              q ∉ map (λ t : DownloadZipData.Task, t.1.2)
                    ((url, local_path, retries) :: rest) →
              files st' !! q = files st !! q) as Hframe'.
    { intros q Hq. simpl in Hq. apply not_elem_of_cons in Hq as [Hne Hq].
      by rewrite Hframe, Hfiles. }
    destruct Hreq as [Hreq | Hreq].
    + exists rep', st', new. rewrite Hall, Hreq', Hreq, Hlog', Hlevel'.
      repeat split; try done. simpl. by apply sublist_cons.
    + exists rep', st', ((level_shown st, url) :: new).
      rewrite Hall, Hreq', Hreq, Hlog', Hlevel', <- app_assoc.
      repeat split; try done. simpl. by apply sublist_skip.
Qed.

Lemma main_effect_zip (W : Env) (args : DownloadZipData.Args) (st : State) :
  (∃ e, DownloadZipData.validate W args = Raise e ∧
        DownloadZipData.main W args st = (Raise e, st)) ∨
  ∃ rep st' new,
    DownloadZipData.main W args st = (Ret rep, st') ∧
    Forall Wanted (DownloadZipData.selected rep) ∧
    log st' = log st ∧
    requests st' = requests st ++ new ∧
    map snd new `sublist_of`
      map (urljoin W DownloadZipData.S3_BASE_URL)
        (DownloadZipData.selected rep) ∧
    (∀ q, q ∉ map (path_join W (DownloadZipData.download_dir args))
                (DownloadZipData.selected rep) →
          files st' !! q = files st !! q) ∧
    (∀ q, exists_in st q → exists_in st' q) ∧
    DownloadZipData.successful_downloads rep +
      DownloadZipData.failed_downloads rep
      <= Z.of_nat (length (DownloadZipData.selected rep)) ∧
    (DownloadZipData.confirmed (stdin_line W) = false ∨ DownloadZipData.exit_status rep = 1 →
     st' = st ∧ DownloadZipData.successful_downloads rep = 0 ∧
     DownloadZipData.failed_downloads rep = 0).
Proof.
  assert (∀ code l,
            Forall Wanted l →
            ∃ rep st' new,
              DownloadZipData.exit_with code l st = (Ret rep, st') ∧
              Forall Wanted (DownloadZipData.selected rep) ∧
              log st' = log st ∧
              requests st' = requests st ++ new ∧
              map snd new `sublist_of`
                map (urljoin W DownloadZipData.S3_BASE_URL)
                  (DownloadZipData.selected rep) ∧
              (∀ q, q ∉ map (path_join W (DownloadZipData.download_dir args))
                          (DownloadZipData.selected rep) →
                    files st' !! q = files st !! q) ∧
              (∀ q, exists_in st q → exists_in st' q) ∧
              DownloadZipData.successful_downloads rep +
                DownloadZipData.failed_downloads rep
                <= Z.of_nat (length (DownloadZipData.selected rep)) ∧
              (DownloadZipData.confirmed (stdin_line W) = false ∨
               DownloadZipData.exit_status rep = 1 →
               st' = st ∧ DownloadZipData.successful_downloads rep = 0 ∧
               DownloadZipData.failed_downloads rep = 0)) as Hexit.
  { intros code l Hl. eexists _, st, []. unfold DownloadZipData.exit_with, ret.
    split; [reflexivity |]. simpl. rewrite app_nil_r.
    repeat split; try done; [apply sublist_nil_l | lia]. }
  destruct (DownloadZipData.validate W args) as [[code | [year month]]|e]
    eqn:Hv.
  3: { left. exists e. split; [done |].
       unfold DownloadZipData.main, bind, lift. by rewrite Hv. }
  all: right; unfold DownloadZipData.main; unfold bind at 1; unfold lift;
    rewrite Hv; cbv beta iota.
  { by apply Hexit. }
  unfold bind at 1. unfold Fs.exists_. cbv beta iota.
  destruct (negb _); [by apply Hexit |].
  unfold bind at 1. unfold DownloadZipData.find_all_xml_files. cbv beta iota.
  destruct (rglob_xml W _ _) as [|f fs]; [by apply Hexit |].
  destruct (extract_all_effect W (f :: fs) [] st) as (all & Hrun & Hall).
  unfold bind at 1. rewrite Hrun. cbn [app].
  set (filtered_files :=
         if PyStr.truthy_opt year && PyStr.truthy_opt month
         then DownloadZipData.filter_files_by_date all year month else all).
  assert (Forall Wanted filtered_files) as Hfiltered.
  { subst filtered_files. destruct (_ && _); [| done].
    apply Forall_forall. intros key Hkey.
    eapply elem_of_sublist in Hkey; [| apply filter_by_date_sublist].
    by eapply Forall_forall in Hall. }
  destruct filtered_files as [|k ks] eqn:Hf; [by apply Hexit |].
  rewrite <- Hf in *. clear Hf.
  destruct (DownloadZipData.confirmed (stdin_line W)) eqn:Hc; simpl;
    [| by apply Hexit].
  unfold bind at 1, Fs.mkdir at 1.
  set (st0 := {| files := files st; dirs := _; level_shown := _;
                 requests := _; log := _ |}).
  set (tasks := map _ filtered_files).
  set (rep0 := {| DownloadZipData.exit_status := 0;
                  DownloadZipData.selected := filtered_files;
                  DownloadZipData.successful_downloads := 0;
                  DownloadZipData.failed_downloads := 0;
                  DownloadZipData.failed_files := [] |}).
  destruct (download_all_trace W tasks rep0 st0)
    as (rep & st' & new & Hrun' & Hsel & Hexit' & Hlog & _ & Hreq & Hsub &
        Hframe).
  destruct (download_all_effect W tasks rep0 st0)
    as (rep2 & st2 & Hrun2 & Hsum & _ & Hkeep & _).
  rewrite Hrun' in Hrun2. injection Hrun2 as <- <-.
  exists rep, st', new. rewrite Hsel. cbn [DownloadZipData.selected rep0].
  split; [done |]. split; [done |]. split; [done |]. split; [done |].
  split; [| split; [| split; [| split]]].
  - subst tasks. by rewrite map_map in Hsub.
  - intros q Hq. apply Hframe. subst tasks. by rewrite map_map.
  - intros q Hq. apply Hkeep. destruct Hq as [Hq | Hq]; [by left | right].
    simpl. set_solver.
  - rewrite Hsum. subst tasks. rewrite length_map. simpl. lia.
  - rewrite Hexit'. simpl. by intros [|].
Qed.

(** X15. When the answer to the question is not "y" or "yes", in any
    case of the letters, [main] ends with the state it started in: no
    directory made, no request, no file written. It has read the XML
    files by then, and what it reports as selected are wanted keys. *)
Theorem declined_run_changes_nothing (W : Env) (args : DownloadZipData.Args)
    (st : State) :
  DownloadZipData.confirmed (stdin_line W) = false →
  ∃ r,
    DownloadZipData.main W args st = (r, st) ∧
    ∀ rep, r = Ret rep →
           Forall Wanted (DownloadZipData.selected rep) ∧
           DownloadZipData.successful_downloads rep = 0 ∧
           DownloadZipData.failed_downloads rep = 0.
Proof.
  intros Hc.
  destruct (main_effect_zip W args st)
    as [(e & _ & Hrun) |
        (rep & st' & new & Hrun & Hw & _ & _ & _ & _ & _ & _ & Hsame)].
  - exists (Raise e). split; [done |]. by intros rep.
  - destruct (Hsame (or_introl Hc)) as (-> & Hs & Hf).
    exists (Ret rep). split; [done |]. by intros ? [= <-].
Qed.

Lemma declined_run_changes_nothing_witness :
  ∃ rep,
    DownloadZipData.main env_declined (zip_args None None) mirrored =
      (Ret rep, mirrored) ∧
    DownloadZipData.successful_downloads rep = 0.
Proof.
  destruct (declined_run_changes_nothing env_declined (zip_args None None)
              mirrored eq_refl) as (r & Hrun & Hrep).
  destruct r as [rep|e].
  - exists rep. split; [exact Hrun |]. by destruct (Hrep rep eq_refl) as (_ & ? & _).
  - vm_compute in Hrun. discriminate.
Defined.


(** *** The file a download leaves *)







(** ** count_xml_zip_files.py *)

Lemma fold_count_add_zip_file (l : list Element) (acc : list string) :
  fold_left CountXmlZipFiles.add_zip_file l acc =
  acc ++ flat_map (DownloadZipData.add_zip_file []) l.
Proof. exact (fold_add_zip_file l acc). Qed.

Lemma flat_map_wanted (l : list Element) :
  Forall Wanted (flat_map (DownloadZipData.add_zip_file []) l).
Proof.
  induction l as [|c l IH]; simpl; [done |].
  apply Forall_app. split; [apply add_zip_file_wanted | done].
Qed.

(** X18. [count_zip_files_in_xml] never raises and leaves the state as it
    is. It returns the path it was given, and either an empty error text
    with the wanted keys of the listing and their number, when the file
    could be read, decoded and parsed, or a non-empty error text with the
    count 0 and no key. So the error text is empty exactly when the file
    was parsed, which is what [analyze_zip_distribution] tests. *)
Theorem count_zip_files_in_xml_result (W : Env) (xml_file_path : string)
    (st : State) :
  ∃ zip_files error,
    CountXmlZipFiles.count_zip_files_in_xml W xml_file_path st =
      (Ret (xml_file_path, Z.of_nat (length zip_files), zip_files, error), st) ∧
    Forall Wanted zip_files ∧
    (PyStr.truthy error = true → zip_files = []) ∧
    (PyStr.truthy error = false ↔
     ∃ content doc root,
       files st !! xml_file_path = Some content ∧
       bytes_decode W content = Ret doc ∧
       ET_fromstring W doc = Ret root ∧
       zip_files =
         flat_map (DownloadZipData.add_zip_file [])
           (ET.findall (ET.s3 "Contents") root)).
Proof.
  assert (∀ e : exn,
            ∃ error,
              match exn_cls e with
              | ParseError =>
                  ret (xml_file_path, 0, [], "XML解析错误: " +:+ exn_str e)
              | FileNotFoundError => ret (xml_file_path, 0, [], "文件不存在")
              | _ => ret (xml_file_path, 0, [], "处理错误: " +:+ exn_str e)
              end st = (Ret (xml_file_path, 0, @nil string, error), st) ∧
              PyStr.truthy error = true) as Hhandler.
  { intros e. destruct (exn_cls e); eexists; split; reflexivity. }
  unfold CountXmlZipFiles.count_zip_files_in_xml, try_except, bind, lift,
    Fs.read.
  destruct (files st !! xml_file_path) as [content|] eqn:Hfile.
  2: { destruct (Hhandler (Exn FileNotFoundError xml_file_path))
         as (error & -> & Herr).
       exists [], error. split; [done |]. split; [done |]. split; [done |].
       rewrite Herr. split; [done | by intros (? & ? & ? & ? & _)]. }
  destruct (bytes_decode W content) as [doc|e] eqn:Hdecode.
  2: { destruct (Hhandler e) as (error & -> & Herr).
       exists [], error. split; [done |]. split; [done |]. split; [done |].
       rewrite Herr. split; [done |].
       intros (? & ? & ? & [= <-] & ? & _). congruence. }
  destruct (ET_fromstring W doc) as [root|e] eqn:Hparse.
  2: { destruct (Hhandler e) as (error & -> & Herr).
       exists [], error. split; [done |]. split; [done |]. split; [done |].
       rewrite Herr. split; [done |].
       intros (? & ? & ? & [= <-] & ? & ? & _). congruence. }
  unfold ret. rewrite fold_count_add_zip_file. simpl.
  eexists _, "". split; [reflexivity |].
  split; [apply flat_map_wanted |]. split; [done |].
  split; [| done]. intros _. by exists content, doc, root.
Qed.

(** *** The analysis of the results *)

Lemma fold_sum_insert {K} `{Countable K} (g : K → Z → Z) (d : gmap K Z)
    (k : K) (v : Z) :
  map_fold (λ k v acc, g k v + acc) 0 (<[k := v]> d) =
  g k v + map_fold (λ k v acc, g k v + acc) 0 d -
  match d !! k with Some w => g k w | None => 0 end.
Proof.
  destruct (d !! k) as [w|] eqn:Hk.
  - rewrite <- insert_delete_eq.
    rewrite map_fold_insert_L; [| intros; lia | apply lookup_delete_eq].
    rewrite (map_fold_delete_L _ _ k w d); [lia | intros; lia | done].
  - rewrite map_fold_insert_L; [lia | intros; lia | done].
Qed.

Lemma dict_total_incr {K} `{Countable K} (k : K) (d : gmap K Z) :
  dict_total (incr k d) = dict_total d + 1.
Proof.
  unfold dict_total, incr. rewrite (fold_sum_insert (λ _ v, v)).
  destruct (d !! k); simpl; lia.
Qed.

Lemma dict_weighted_incr (k : Z) (d : gmap Z Z) :
  dict_weighted (incr k d) = dict_weighted d + k.
Proof.
  unfold dict_weighted, incr. rewrite (fold_sum_insert (λ k v, k * v)).
  destruct (d !! k); simpl; lia.
Qed.

Lemma dict_total_count_types (stats : gmap string Z) (zip_list : list string) :
  dict_total (count_types stats zip_list) =
  dict_total stats + Z.of_nat (length zip_list).
Proof.
  unfold count_types. revert stats.
  induction zip_list as [|z l IH]; intros stats; simpl; [lia |].
  rewrite IH, dict_total_incr. lia.
Qed.

Lemma file_type_known (zip_file : string) : file_type zip_file ∈ file_types.
Proof.
  unfold file_type, file_types.
  repeat (destruct (PyStr.contains _ zip_file); [set_solver |]). set_solver.
Qed.

Lemma dom_count_types (stats : gmap string Z) (zip_list : list string)
    (k : string) :
  k ∈ dom (count_types stats zip_list) → k ∈ dom stats ∨ k ∈ file_types.
Proof.
  unfold count_types. revert stats.
  induction zip_list as [|z l IH]; intros stats; simpl; [by left |].
  intros Hk. apply IH in Hk as [Hk | Hk]; [| by right].
  unfold incr in Hk. rewrite dom_insert in Hk.
  apply elem_of_union in Hk as [Hk | Hk]; [| by left].
  apply elem_of_singleton in Hk as ->. right. apply file_type_known.
Qed.

Lemma sum_Z_app (l1 l2 : list Z) : sum_Z (l1 ++ l2) = sum_Z l1 + sum_Z l2.
Proof. induction l1 as [|x l1 IH]; simpl; [done | rewrite IH; lia]. Qed.

Lemma without_error_cons (r : CountResult) (rs : list CountResult) :
  without_error (r :: rs) = without_error [r] ++ without_error rs.
Proof. apply (List.filter_app _ [r] rs). Qed.

Lemma with_zips_cons (r : CountResult) (rs : list CountResult) :
  with_zips (r :: rs) = with_zips [r] ++ with_zips rs.
Proof.
  unfold with_zips. rewrite without_error_cons. apply List.filter_app.
Qed.

Lemma valid_of_cons (r : CountResult) (rs : list CountResult) :
  valid_of (r :: rs) = valid_of [r] ++ valid_of rs.
Proof. unfold valid_of. rewrite without_error_cons. apply map_app. Qed.

(** What one turn of the loop of [analyze_zip_distribution] adds to its
    variables. *)
Lemma analyze_one_fields (r : CountResult) (t : Tally) :
  let t' := analyze_one t r in
  total_xml_files (tally t') = total_xml_files (tally t) ∧
  top_xml_files (tally t') = top_xml_files (tally t) ∧
  valid_results t' = valid_results t ++ valid_of [r] ∧
  error_files (tally t') =
    error_files (tally t) + (1 - Z.of_nat (length (without_error [r]))) ∧
  total_zip_files (tally t') =
    total_zip_files (tally t) + sum_Z (map count_of (without_error [r])) ∧
  xml_with_zips (tally t') =
    xml_with_zips (tally t) + Z.of_nat (length (with_zips [r])) ∧
  xml_without_zips (tally t') =
    xml_without_zips (tally t) +
    (Z.of_nat (length (without_error [r])) -
     Z.of_nat (length (with_zips [r]))) ∧
  dict_total (distribution (tally t')) =
    dict_total (distribution (tally t)) + Z.of_nat (length (with_zips [r])) ∧
  dict_weighted (distribution (tally t')) =
    dict_weighted (distribution (tally t)) +
    sum_Z (map count_of (with_zips [r])) ∧
  dict_total (file_type_stats (tally t')) =
    dict_total (file_type_stats (tally t)) +
    sum_Z (map (λ r, Z.of_nat (length (list_of r))) (with_zips [r])) ∧
  (∀ k, k ∈ dom (distribution (tally t')) →
        k ∈ dom (distribution (tally t)) ∨ 0 < k) ∧
  (∀ k, k ∈ dom (file_type_stats (tally t')) →
        k ∈ dom (file_type_stats (tally t)) ∨ k ∈ file_types).
Proof.
  destruct r as [[[xml_path zip_count] zip_list] error].
  unfold analyze_one, valid_of, with_zips, without_error, count_of, list_of.
  cbn [List.filter fst snd]. destruct (PyStr.truthy error); cbn [negb].
  { simpl. rewrite app_nil_r. repeat split; try lia; intros; by left. }
  cbn [List.filter fst snd]. destruct (Z.ltb_spec 0 zip_count) as [Hpos | Hle].
  - simpl. rewrite dict_total_incr, dict_weighted_incr, dict_total_count_types.
    split; [done |]. split; [done |]. split; [done |].
    split; [lia |]. split; [lia |]. split; [lia |]. split; [lia |].
    split; [lia |]. split; [lia |]. split; [lia |]. split.
    + intros k Hk. unfold incr in Hk. rewrite dom_insert in Hk.
      apply elem_of_union in Hk as [Hk | Hk]; [| by left].
      apply elem_of_singleton in Hk as ->. by right.
    + intros k Hk. by apply dom_count_types in Hk.
  - simpl. repeat split; try lia; intros; by left.
Qed.

(** What the loop of [analyze_zip_distribution] adds to its variables. *)
Lemma fold_analyze_one (results : list CountResult) (t : Tally) :
  let t' := fold_left analyze_one results t in
  total_xml_files (tally t') = total_xml_files (tally t) ∧
  top_xml_files (tally t') = top_xml_files (tally t) ∧
  valid_results t' = valid_results t ++ valid_of results ∧
  error_files (tally t') =
    error_files (tally t) +
    (Z.of_nat (length results) - Z.of_nat (length (without_error results))) ∧
  total_zip_files (tally t') =
    total_zip_files (tally t) + sum_Z (map count_of (without_error results)) ∧
  xml_with_zips (tally t') =
    xml_with_zips (tally t) + Z.of_nat (length (with_zips results)) ∧
  xml_without_zips (tally t') =
    xml_without_zips (tally t) +
    (Z.of_nat (length (without_error results)) -
     Z.of_nat (length (with_zips results))) ∧
  dict_total (distribution (tally t')) =
    dict_total (distribution (tally t)) +
    Z.of_nat (length (with_zips results)) ∧
  dict_weighted (distribution (tally t')) =
    dict_weighted (distribution (tally t)) +
    sum_Z (map count_of (with_zips results)) ∧
  dict_total (file_type_stats (tally t')) =
    dict_total (file_type_stats (tally t)) +
    sum_Z (map (λ r, Z.of_nat (length (list_of r))) (with_zips results)) ∧
  (∀ k, k ∈ dom (distribution (tally t')) →
        k ∈ dom (distribution (tally t)) ∨ 0 < k) ∧
  (∀ k, k ∈ dom (file_type_stats (tally t')) →
        k ∈ dom (file_type_stats (tally t)) ∨ k ∈ file_types).
Proof.
  revert t. induction results as [|r rs IH]; intros t.
  - simpl. unfold valid_of, with_zips, without_error. simpl.
    rewrite app_nil_r. repeat split; try lia; intros; by left.
  - cbn [fold_left]. specialize (IH (analyze_one t r)). cbv zeta in IH |- *.
    destruct IH as (I1 & I2 & I3 & I4 & I5 & I6 & I7 & I8 & I9 & I10 & I11 &
                    I12).
    destruct (analyze_one_fields r t)
      as (S1 & S2 & S3 & S4 & S5 & S6 & S7 & S8 & S9 & S10 & S11 & S12).
    rewrite I1, I2, I3, I4, I5, I6, I7, I8, I9, I10.
    rewrite S1, S2, S3, S4, S5, S6, S7, S8, S9, S10.
    rewrite (with_zips_cons r rs), (without_error_cons r rs),
      (valid_of_cons r rs).
    rewrite !map_app, !sum_Z_app, !length_app, <- !app_assoc. cbn [length].
    split; [done |]. split; [done |]. split; [done |].
    split; [lia |]. split; [lia |]. split; [lia |]. split; [lia |].
    split; [lia |]. split; [lia |]. split; [lia |]. split.
    + intros k Hk. apply I11 in Hk as [Hk | Hk]; [| by right]. by apply S11.
    + intros k Hk. apply I12 in Hk as [Hk | Hk]; [| by right]. by apply S12.
Qed.

Lemma dict_total_empty {K} `{Countable K} : dict_total (∅ : gmap K Z) = 0.
Proof. apply map_fold_empty. Qed.

Lemma dict_weighted_empty : dict_weighted ∅ = 0.
Proof. apply map_fold_empty. Qed.

(** The loop as [analyze_zip_distribution] starts it. *)
Lemma analysis_loop (results : list CountResult) :
  let t' :=
    fold_left analyze_one results
      {| tally :=
           {| total_xml_files := Z.of_nat (length results);
              total_zip_files := 0; xml_with_zips := 0; xml_without_zips := 0;
              error_files := 0; distribution := ∅; top_xml_files := [];
              file_type_stats := ∅ |};
         valid_results := [] |} in
  total_xml_files (tally t') = Z.of_nat (length results) ∧
  valid_results t' = valid_of results ∧
  error_files (tally t') =
    Z.of_nat (length results) - Z.of_nat (length (without_error results)) ∧
  total_zip_files (tally t') = sum_Z (map count_of (without_error results)) ∧
  xml_with_zips (tally t') = Z.of_nat (length (with_zips results)) ∧
  xml_without_zips (tally t') =
    Z.of_nat (length (without_error results)) -
    Z.of_nat (length (with_zips results)) ∧
  dict_total (distribution (tally t')) =
    Z.of_nat (length (with_zips results)) ∧
  dict_weighted (distribution (tally t')) =
    sum_Z (map count_of (with_zips results)) ∧
  dict_total (file_type_stats (tally t')) =
    sum_Z (map (λ r, Z.of_nat (length (list_of r))) (with_zips results)) ∧
  (∀ k, k ∈ dom (distribution (tally t')) → 0 < k) ∧
  (∀ k, k ∈ dom (file_type_stats (tally t')) → k ∈ file_types).
Proof.
  match goal with
  | |- context [fold_left analyze_one results ?t0] =>
      destruct (fold_analyze_one results t0)
        as (I1 & I2 & I3 & I4 & I5 & I6 & I7 & I8 & I9 & I10 & I11 & I12)
  end.
  cbn [tally total_xml_files total_zip_files xml_with_zips xml_without_zips
       error_files distribution file_type_stats top_xml_files valid_results]
    in I1, I3, I4, I5, I6, I7, I8, I9, I10, I11, I12.
  pose proof (dict_total_empty (K:=Z)) as E1.
  pose proof (dict_total_empty (K:=string)) as E2.
  pose proof dict_weighted_empty as E3. cbv zeta.
  split; [done |]. split; [done |]. split; [lia |]. split; [lia |].
  split; [lia |]. split; [lia |]. split; [lia |]. split; [lia |].
  split; [lia |]. split.
  - intros k Hk. apply I11 in Hk as [Hk | Hk]; [| done].
    by rewrite dom_empty in Hk.
  - intros k Hk. apply I12 in Hk as [Hk | Hk]; [| done].
    by rewrite dom_empty in Hk.
Qed.

(** X19. The counters of [analyze_zip_distribution] add up. Each result
    is counted once, as an error, as a file with zip files or as a file
    without; the total is the sum of the counts of the results without
    error; the values of [distribution] add up to the number of files with
    zip files and its keys are positive; [file_type_stats] has no key but
    the six type names. *)
Theorem analysis_counts (results : list CountResult) :
  let a := analyze_zip_distribution results in
  total_xml_files a = Z.of_nat (length results) ∧
  error_files a + xml_with_zips a + xml_without_zips a = total_xml_files a ∧
  error_files a =
    Z.of_nat (length results) - Z.of_nat (length (without_error results)) ∧
  xml_with_zips a = Z.of_nat (length (with_zips results)) ∧
  total_zip_files a = sum_Z (map count_of (without_error results)) ∧
  dict_total (distribution a) = xml_with_zips a ∧
  dict_weighted (distribution a) = sum_Z (map count_of (with_zips results)) ∧
  dict_total (file_type_stats a) =
    sum_Z (map (λ r, Z.of_nat (length (list_of r))) (with_zips results)) ∧
  (∀ k, k ∈ dom (distribution a) → 0 < k) ∧
  (∀ k, k ∈ dom (file_type_stats a) → k ∈ file_types).
Proof.
  destruct (analysis_loop results)
    as (I1 & I2 & I3 & I4 & I5 & I6 & I7 & I8 & I9 & I10 & I11).
  unfold analyze_zip_distribution. cbv zeta in *.
  cbn [total_xml_files total_zip_files xml_with_zips xml_without_zips
       error_files distribution file_type_stats].
  rewrite I1, I3, I4, I5, I6, I7, I8, I9. repeat split; try done; lia.
Qed.

Lemma sum_Z_positive_counts (l : list CountResult) :
  Forall well_counted l →
  sum_Z (map count_of (List.filter (λ r : CountResult, 0 <? count_of r) l)) =
    sum_Z (map count_of l) ∧
  sum_Z (map (λ r, Z.of_nat (length (list_of r)))
           (List.filter (λ r : CountResult, 0 <? count_of r) l)) =
    sum_Z (map count_of l).
Proof.
  induction 1 as [|r l Hr _ [IH1 IH2]]; simpl; [done |].
  unfold well_counted in Hr.
  destruct (Z.ltb_spec 0 (count_of r)); simpl; rewrite ?IH1, ?IH2; lia.
Qed.

Lemma Forall_filter_keeps {A} (P : A → Prop) (f : A → bool) (l : list A) :
  Forall P l → Forall P (List.filter f l).
Proof.
  induction 1 as [|x l Hx _ IH]; simpl; [done |].
  destruct (f x); [by constructor | done].
Qed.

(** X20. For results whose count is the length of their list, as
    [count_zip_files_in_xml] returns them, the three tallies of
    [analyze_zip_distribution] agree: the total of zip files is the sum of
    [count * files] over [distribution], and it is the sum of the values
    of [file_type_stats], so every zip file is counted under one type. *)
Theorem analysis_totals_agree (results : list CountResult) :
  Forall well_counted results →
  let a := analyze_zip_distribution results in
  total_zip_files a = dict_weighted (distribution a) ∧
  total_zip_files a = dict_total (file_type_stats a) ∧
  0 <= total_zip_files a.
Proof.
  intros Hw.
  destruct (analysis_loop results) as (_ & _ & _ & I4 & _ & _ & _ & I8 & I9 & _).
  unfold analyze_zip_distribution. cbv zeta in *.
  cbn [total_zip_files distribution file_type_stats].
  rewrite I4, I8, I9.
  assert (Forall well_counted (without_error results)) as Hw'
    by (by apply Forall_filter_keeps).
  destruct (sum_Z_positive_counts _ Hw') as [H1 H2].
  unfold with_zips. rewrite H1, H2. split; [done |]. split; [done |].
  rewrite <- H2. clear.
  induction (List.filter _ (without_error results)) as [|r l IH]; simpl; lia.
Qed.

Lemma analysis_totals_agree_witness :
  total_zip_files (analyze_zip_distribution sample_results) = 2 ∧
  dict_total (file_type_stats (analyze_zip_distribution sample_results)) = 2.
Proof.
  destruct (analysis_totals_agree sample_results) as (_ & H2 & _).
  - repeat constructor.
  - split; [reflexivity |]. rewrite <- H2. reflexivity.
Defined.

(** *** The files with the most zip files *)

Lemma insert_by_count_perm (x : string * Z * list string)
    (s : list (string * Z * list string)) :
  insert_by_count x s ≡ₚ x :: s.
Proof.
  induction s as [|y s IH]; simpl; [done |].
  destruct (_ <=? _); [| done]. rewrite IH. apply Permutation_swap.
Qed.

Lemma insert_by_count_descending (x : string * Z * list string)
    (s : list (string * Z * list string)) :
  descending s → descending (insert_by_count x s).
Proof.
  induction s as [|y s IH]; simpl; [done |]. intros [Hy Hs].
  destruct (Z.leb_spec (snd (fst x)) (snd (fst y))) as [Hle | Hlt]; simpl.
  - split; [| by apply IH]. rewrite insert_by_count_perm. by constructor.
  - split; [| done]. constructor; [unfold count_ge; lia |].
    eapply Forall_impl; [exact Hy |]. unfold count_ge. intros z Hz. lia.
Qed.

Lemma with_count_none (c : Z) (x : string * Z * list string)
    (s : list (string * Z * list string)) :
  Forall (count_ge x) s → snd (fst x) < c → with_count c s = [].
Proof.
  intros Hs Hc. induction Hs as [|y s Hy _ IH]; simpl; [done |].
  unfold count_ge in Hy. destruct (Z.eqb_spec (snd (fst y)) c); [lia | done].
Qed.

Lemma with_count_app (c : Z) (l1 l2 : list (string * Z * list string)) :
  with_count c (l1 ++ l2) = with_count c l1 ++ with_count c l2.
Proof. apply List.filter_app. Qed.

Lemma insert_by_count_stable (c : Z) (x : string * Z * list string)
    (s : list (string * Z * list string)) :
  descending s →
  with_count c (insert_by_count x s) = with_count c s ++ with_count c [x].
Proof.
  induction s as [|y s IH]; [done |]. intros [Hy Hs].
  cbn [insert_by_count].
  destruct (Z.leb_spec (snd (fst x)) (snd (fst y))) as [Hle | Hlt].
  - unfold with_count in *. cbn [List.filter].
    destruct (snd (fst y) =? c); [| by apply IH].
    rewrite IH by done. done.
  - change (x :: y :: s) with ([x] ++ y :: s).
    rewrite (with_count_app c [x] (y :: s)).
    destruct (Z.eqb_spec (snd (fst x)) c) as [Hx | Hx].
    + rewrite (with_count_none c y (y :: s)); [by rewrite app_nil_r | | lia].
      constructor; [unfold count_ge; lia | done].
    + assert (with_count c [x] = []) as ->.
      { unfold with_count. simpl.
        by destruct (Z.eqb_spec (snd (fst x)) c). }
      by rewrite app_nil_r.
Qed.

Lemma fold_insert_by_count (l s : list (string * Z * list string)) :
  descending s →
  let r := fold_left (λ sorted x, insert_by_count x sorted) l s in
  r ≡ₚ s ++ l ∧ descending r ∧
  ∀ c, with_count c r = with_count c s ++ with_count c l.
Proof.
  revert s. induction l as [|x l IH]; intros s Hs; cbn [fold_left].
  - cbv zeta. rewrite app_nil_r. split; [done |]. split; [done |].
    intros c. unfold with_count at 3. simpl. by rewrite app_nil_r.
  - destruct (IH (insert_by_count x s) (insert_by_count_descending x s Hs))
      as (Hp & Hd & Hc). cbv zeta in *. split; [| split; [done |]].
    + rewrite Hp, insert_by_count_perm. simpl. apply Permutation_middle.
    + intros c. rewrite Hc, insert_by_count_stable by done.
      rewrite <- app_assoc. f_equal. symmetry.
      apply (with_count_app c [x] l).
Qed.

Lemma descending_app (l1 l2 : list (string * Z * list string)) :
  descending (l1 ++ l2) →
  ∀ x y, x ∈ l1 → y ∈ l2 → count_ge x y.
Proof.
  induction l1 as [|z l1 IH]; intros Hd x y Hx Hy.
  - by apply elem_of_nil in Hx.
  - destruct Hd as [Hz Hd]. apply elem_of_cons in Hx as [-> | Hx]; [| eauto].
    eapply Forall_forall in Hz; [exact Hz |]. apply elem_of_app. by right.
Qed.

(** X21. [top_xml_files] holds the ten results without error that count
    most, or all of them when they are fewer, in descending order of the
    count: together with the results left out it is a rearrangement of the
    results without error, no result left out counts more than a listed
    one, and results that count the same keep the order they had in
    [results] (the sort is stable). *)
Theorem top_xml_files_are_the_top (results : list CountResult) :
  let a := analyze_zip_distribution results in
  length (top_xml_files a) = Nat.min 10 (length (valid_of results)) ∧
  ∃ rest,
    top_xml_files a ++ rest ≡ₚ valid_of results ∧
    descending (top_xml_files a ++ rest) ∧
    (∀ x y, x ∈ top_xml_files a → y ∈ rest → snd (fst y) <= snd (fst x)) ∧
    (∀ c, with_count c (top_xml_files a ++ rest) =
          with_count c (valid_of results)).
Proof.
  destruct (analysis_loop results) as (_ & Hvalid & _).
  unfold analyze_zip_distribution. cbv zeta in *. cbn [top_xml_files].
  rewrite Hvalid.
  destruct (fold_insert_by_count (valid_of results) [] I) as (Hp & Hd & Hc).
  cbv zeta in *. fold (sort_by_count_desc (valid_of results)) in *.
  split.
  - rewrite length_take. by rewrite Hp.
  - exists (drop 10 (sort_by_count_desc (valid_of results))).
    rewrite take_drop. split; [done |]. split; [done |]. split; [| done].
    intros x y Hx Hy.
    apply (descending_app (take 10 (sort_by_count_desc (valid_of results)))
             (drop 10 (sort_by_count_desc (valid_of results))));
      [by rewrite take_drop | done | done].
Qed.
